(** * adafruit_azureiot: the Azure IoT Hub client, embedded in Rocq

    A shallow embedding of [adafruit_azureiot.py].  Python exceptions are
    values of [exn]; a computation that may raise returns [result A].  The
    methods of [IOT_HUB] run in a state-and-exception monad whose state
    holds the client object (its attributes), the state of the outside
    world the transport talks to, and a trace of the calls made on the
    transport and on its responses.  The header dict of the client is
    shared with the transport: what transport code writes into it shows in
    the client's attribute. *)

From Stdlib Require Import ZArith String Ascii List DecimalString.
From stdpp Require Import gmap strings list.

Local Open Scope Z_scope.

(** ** Exceptions and results *)

Inductive exn : Type :=
  | TypeError (msg : string)
  | AttributeError (attr : string)
  | ValueError (msg : string)
  | IndexError (msg : string)
  | OtherError (cls msg : string).

(** The class of an exception, what an [except] clause dispatches on. *)
Inductive exn_class : Type :=
  | CTypeError | CAttributeError | CValueError | CIndexError | COther (cls : string).

Definition class_of (e : exn) : exn_class :=
  match e with
  | TypeError _ => CTypeError
  | AttributeError _ => CAttributeError
  | ValueError _ => CValueError
  | IndexError _ => CIndexError
  | OtherError c _ => COther c
  end.

(** [inl e]: the exception [e] was raised; [inr a]: returned [a]. *)
Definition result (A : Type) : Type := exn + A.

Definition raised {A} (r : result A) : bool :=
  match r with inl _ => true | inr _ => false end.

Definition rbind {A B} (r : result A) (k : A -> result B) : result B :=
  match r with
  | inl e => inl e
  | inr a => k a
  end.

(** ** Python values that the source formats into strings *)

Inductive pyval : Type :=
  | PyInt (n : Z)
  | PyStr (s : string).

(** [format(v, "")]: an [int] prints in decimal, a [str] is itself. *)
Definition str (v : pyval) : string :=
  match v with
  | PyInt n => NilZero.string_of_int (Z.to_int n)
  | PyStr s => s
  end.

Definition digit_of (c : ascii) : option nat :=
  let n := nat_of_ascii c in
  if (48 <=? n)%nat && (n <=? 57)%nat then Some (n - 48)%nat else None.

(** [str.format], for the templates of the source: literal text and
    explicitly numbered replacement fields [{n}].  [field] is [None] in
    literal text, [Some None] just after an opening brace and
    [Some (Some n)] once the digits read so far make [n].  Escaped braces,
    automatic numbering, conversions and format specifications do not
    occur in the source and are reported as [ValueError] here. *)
Fixpoint format_from (tpl : string) (field : option (option nat))
    (args : list pyval) : result string :=
  match tpl with
  | EmptyString =>
      match field with
      | None => inr EmptyString
      | Some _ => inl (ValueError "expected '}' before end of string")
      end
  | String c rest =>
      match field with
      | None =>
          if Ascii.eqb c "{" then format_from rest (Some None) args
          else if Ascii.eqb c "}" then
            inl (ValueError "Single '}' encountered in format string")
          else rbind (format_from rest None args)
                     (fun r => inr (String c r))
      | Some None =>
          match digit_of c with
          | Some d => format_from rest (Some (Some d)) args
          | None => inl (ValueError "unsupported replacement field")
          end
      | Some (Some n) =>
          if Ascii.eqb c "}" then
            match nth_error args n with
            | Some v => rbind (format_from rest None args)
                              (fun r => inr (str v +:+ r))
            | None => inl (IndexError "tuple index out of range")
            end
          else
            match digit_of c with
            | Some d => format_from rest (Some (Some (10 * n + d)%nat)) args
            | None => inl (ValueError "unsupported replacement field")
            end
      end
  end.

Definition format (tpl : string) (args : list pyval) : result string :=
  format_from tpl None args.

(** [needle in hay] on strings: [needle] occurs somewhere in [hay]. *)
Fixpoint str_in (needle hay : string) : bool :=
  String.prefix needle hay
  || match hay with
     | EmptyString => false
     | String _ rest => str_in needle rest
     end.

(** ** Module constants *)

Definition AZURE_API_VER : string := "2018-06-30".
Definition AZURE_HTTP_ERROR_CODES : list Z := [400; 401; 404; 403; 412; 429; 500].

(** The error-code set as the specification writes it. *)
Definition error_set : gset Z := {[400; 401; 403; 404; 412; 429; 500]}.

(** ** JSON values

    Payloads and decoded bodies pass through the client uninterpreted. *)

#[warnings="-register-all"] Inductive Json : Type :=
  | JNull
  | JBool (b : bool)
  | JNum (n : Z)
  | JStr (s : string)
  | JList (items : list Json)
  | JDict (items : list (string * Json)).

(** ** The trace of calls on the transport

    Every call of a verb method of the transport is recorded with its
    arguments, and so is every call of a response's [json()]. *)

Inductive verb : Type := GET | POST | PUT | PATCH | DELETE.

Record request : Type := {
  req_verb : verb;
  req_url : string;
  req_json : option Json;
  req_headers : gmap string string
}.

Inductive event : Type :=
  | Request (r : request)
  | JsonDecode.

Definition is_decode (e : event) : bool :=
  match e with Request _ => false | JsonDecode => true end.

(** What a piece of transport code does to the contents of the header
    dict of the client, which it holds as the object itself. *)
Definition edit : Type := gmap string string -> gmap string string.

(** The requests of a trace, in order. *)
Definition requests (l : list event) : list request :=
  omap (fun e => match e with Request r => Some r | JsonDecode => None end) l.

(** How many times a body was decoded. *)
Definition decodes (l : list event) : nat :=
  length (filter (fun e => is_decode e = true) l).

Section Model.

Context {World : Type}.

(** ** The transport (external collaborator)

    [World] is the state of everything behind the transport: radio,
    sockets, the hub.  A response exposes [status_code], [reason] and
    [json()]; decoding reads the body, so it runs on the world and may
    raise.  A transport object has a type, of which only [str(type(obj))]
    is observed, and may or may not have each of the five verb methods:
    calling a missing one raises [AttributeError].

    The helpers pass [headers=self._azure_header]: the transport is handed
    the dict object of the client, not a copy.  A verb method is given the
    contents of the dict at the call and, besides the new world and its
    outcome, gives back the [edit] it made to the dict.  A response may
    have kept the dict, so [json()] gives back an [edit] too. *)

Record Response : Type := {
  status_code : Z;
  reason : string;
  json : World -> World * edit * result Json
}.

Record WiFiManager : Type := {
  type_str : string;
  wifi_get : option (string -> gmap string string ->
                     World -> World * edit * result Response);
  wifi_post : option (string -> Json -> gmap string string ->
                      World -> World * edit * result Response);
  wifi_put : option (string -> Json -> gmap string string ->
                     World -> World * edit * result Response);
  wifi_patch : option (string -> Json -> gmap string string ->
                       World -> World * edit * result Response);
  wifi_delete : option (string -> gmap string string ->
                        World -> World * edit * result Response)
}.

(** ** The client object

    The attributes of an [IOT_HUB] instance; [None] is an attribute that
    is not set (every one of them before [__init__] has run).
    [_azure_header] holds the dict the attribute refers to, with the
    contents it has now. *)

Record IOT_HUB : Type := {
  _wifi : option WiFiManager;
  _iot_hub_url : option string;
  _sas_token : option string;
  _azure_header : option (gmap string string)
}.

Definition blank : IOT_HUB :=
  {| _wifi := None; _iot_hub_url := None; _sas_token := None;
     _azure_header := None |}.

(** The object once transport code has made the edit [e] to its header
    dict, if it has one. *)
Definition edited (e : edit) (o : IOT_HUB) : IOT_HUB :=
  {| _wifi := _wifi o; _iot_hub_url := _iot_hub_url o;
     _sas_token := _sas_token o;
     _azure_header := e <$> _azure_header o |}.

Record state : Type := {
  self : IOT_HUB;
  net : World;
  log : list event
}.

(** ** The monad of the methods *)

Definition M (A : Type) : Type := state -> state * result A.

Definition ret {A} (a : A) : M A := fun st => (st, inr a).

Definition raise {A} (e : exn) : M A := fun st => (st, inl e).

Definition bind {A B} (m : M A) (k : A -> M B) : M B :=
  fun st =>
    match m st with
    | (st', inl e) => (st', inl e)
    | (st', inr a) => k a st'
    end.

Definition lift {A} (r : result A) : M A := fun st => (st, r).

Notation "x <- m ;; k" := (bind m (fun x => k))
  (at level 20, m at level 99, k at level 200, only parsing).

(** [self.name], reading. *)
Definition getattr {A} (name : string) (field : IOT_HUB -> option A) : M A :=
  fun st =>
    match field (self st) with
    | Some a => (st, inr a)
    | None => (st, inl (AttributeError name))
    end.

(** [self.name = v], as the update [upd] of the object. *)
Definition setattr (upd : IOT_HUB -> IOT_HUB) : M unit :=
  fun st => ({| self := upd (self st); net := net st; log := log st |}, inr tt).

(** [wifi.name], the lookup of a verb method on the transport. *)
Definition method {A} (name : string) (m : option A) : M A :=
  match m with
  | Some f => ret f
  | None => raise (AttributeError name)
  end.

(** The call of a verb method [f] of the transport, recorded as [r]; the
    method was passed [self._azure_header], and what it wrote into that
    dict is in the object when it returns or raises. *)
Definition send (r : request) (f : World -> World * edit * result Response)
    : M Response :=
  fun st =>
    let '(w, e, res) := f (net st) in
    ({| self := edited e (self st); net := w; log := log st ++ [Request r] |},
     res).

(** [response.json()]. *)
Definition decode (response : Response) : M Json :=
  fun st =>
    let '(w, e, res) := json response (net st) in
    ({| self := edited e (self st); net := w; log := log st ++ [JsonDecode] |},
     res).

(** ** class IOT_HUB *)

Definition __init__ (wifi_manager : WiFiManager)
    (iot_hub_name sas_token : string) : M unit :=
  let _wifi_type := type_str wifi_manager in
  _ <- (if str_in "ESPSPI_WiFiManager" _wifi_type then
          setattr (fun o => {| _wifi := Some wifi_manager;
                               _iot_hub_url := _iot_hub_url o;
                               _sas_token := _sas_token o;
                               _azure_header := _azure_header o |})
        else raise (TypeError "This library requires a WiFiManager object.")) ;;
  url <- lift (format "https://{0}.azure-devices.net" [PyStr iot_hub_name]) ;;
  _ <- setattr (fun o => {| _wifi := _wifi o;
                            _iot_hub_url := Some url;
                            _sas_token := _sas_token o;
                            _azure_header := _azure_header o |}) ;;
  _ <- setattr (fun o => {| _wifi := _wifi o;
                            _iot_hub_url := _iot_hub_url o;
                            _sas_token := Some sas_token;
                            _azure_header := _azure_header o |}) ;;
  token <- getattr "_sas_token" _sas_token ;;
  setattr (fun o => {| _wifi := _wifi o;
                       _iot_hub_url := _iot_hub_url o;
                       _sas_token := _sas_token o;
                       _azure_header := Some {[ "Authorization" := token ]} |}).

(** The loop of [_parse_http_status] over the remaining [codes]. *)
Fixpoint parse_http_status_loop (codes : list Z) (status_code : Z)
    (status_reason : string) : result unit :=
  match codes with
  | [] => inr tt
  | error :: rest =>
      if Z.eqb error status_code then
        rbind (format "Error {0}: {1}" [PyInt status_code; PyStr status_reason])
              (fun msg => inl (TypeError msg))
      else parse_http_status_loop rest status_code status_reason
  end.

Definition _parse_http_status (status_code : Z) (status_reason : string)
    : result unit :=
  parse_http_status_loop AZURE_HTTP_ERROR_CODES status_code status_reason.

(** *** HTTP request methods *)

Definition _post (path : string) (payload : Json) : M Json :=
  wifi <- getattr "_wifi" _wifi ;;
  post <- method "post" (wifi_post wifi) ;;
  headers <- getattr "_azure_header" _azure_header ;;
  response <- send {| req_verb := POST; req_url := path;
                      req_json := Some payload; req_headers := headers |}
                   (post path payload headers) ;;
  _ <- lift (_parse_http_status (status_code response) (reason response)) ;;
  decode response.

Definition _get (path : string) : M Json :=
  wifi <- getattr "_wifi" _wifi ;;
  get <- method "get" (wifi_get wifi) ;;
  headers <- getattr "_azure_header" _azure_header ;;
  response <- send {| req_verb := GET; req_url := path;
                      req_json := None; req_headers := headers |}
                   (get path headers) ;;
  _ <- lift (_parse_http_status (status_code response) (reason response)) ;;
  decode response.

Definition _delete (path : string) : M Json :=
  wifi <- getattr "_wifi" _wifi ;;
  delete <- method "delete" (wifi_delete wifi) ;;
  headers <- getattr "_azure_header" _azure_header ;;
  response <- send {| req_verb := DELETE; req_url := path;
                      req_json := None; req_headers := headers |}
                   (delete path headers) ;;
  _ <- lift (_parse_http_status (status_code response) (reason response)) ;;
  decode response.

Definition _patch (path : string) (payload : Json) : M Json :=
  wifi <- getattr "_wifi" _wifi ;;
  patch <- method "patch" (wifi_patch wifi) ;;
  headers <- getattr "_azure_header" _azure_header ;;
  response <- send {| req_verb := PATCH; req_url := path;
                      req_json := Some payload; req_headers := headers |}
                   (patch path payload headers) ;;
  _ <- lift (_parse_http_status (status_code response) (reason response)) ;;
  decode response.

Definition _put (path : string) (payload : Json) : M Json :=
  wifi <- getattr "_wifi" _wifi ;;
  put <- method "put" (wifi_put wifi) ;;
  headers <- getattr "_azure_header" _azure_header ;;
  response <- send {| req_verb := PUT; req_url := path;
                      req_json := Some payload; req_headers := headers |}
                   (put path payload headers) ;;
  _ <- lift (_parse_http_status (status_code response) (reason response)) ;;
  decode response.

(** *** Device messaging *)

Definition send_device_message (device_id : string) (message : Json) : M unit :=
  url <- getattr "_iot_hub_url" _iot_hub_url ;;
  path <- lift (format "{0}/devices/{1}/messages/events?api-version={2}"
                       [PyStr url; PyStr device_id; PyStr AZURE_API_VER]) ;;
  _ <- _post path message ;;
  ret tt.

(** *** Device twin *)

Definition get_device_twin (device_id : string) : M Json :=
  url <- getattr "_iot_hub_url" _iot_hub_url ;;
  path <- lift (format "{0}/twins/{1}?api-version={2}"
                       [PyStr url; PyStr device_id; PyStr AZURE_API_VER]) ;;
  _get path.

Definition update_device_twin (device_id : string) (properties : Json) : M Json :=
  url <- getattr "_iot_hub_url" _iot_hub_url ;;
  path <- lift (format "{0}/twins/{1}?api-version={2}"
                       [PyStr url; PyStr device_id; PyStr AZURE_API_VER]) ;;
  _patch path properties.

Definition replace_device_twin (device_id : string) (properties : Json) : M Json :=
  url <- getattr "_iot_hub_url" _iot_hub_url ;;
  path <- lift (format "{0}/twins/{1}?api-version-{2}"
                       [PyStr url; PyStr device_id; PyStr AZURE_API_VER]) ;;
  _put path properties.

(** *** IoT Hub service *)

Definition get_devices : M Json :=
  url <- getattr "_iot_hub_url" _iot_hub_url ;;
  path <- lift (format "{0}/devices/?api-version={1}"
                       [PyStr url; PyStr AZURE_API_VER]) ;;
  _get path.

Definition get_device (device_id : string) : M Json :=
  url <- getattr "_iot_hub_url" _iot_hub_url ;;
  path <- lift (format "{0}/devices/{1}?api-version={2}"
                       [PyStr url; PyStr device_id; PyStr AZURE_API_VER]) ;;
  _get path.

Definition delete_device (device_id : string) : M unit :=
  url <- getattr "_iot_hub_url" _iot_hub_url ;;
  path <- lift (format "{0}/devices/{1}?api-version={2}"
                       [PyStr url; PyStr device_id; PyStr AZURE_API_VER]) ;;
  _ <- _delete path ;;
  ret tt.

(** ** Vocabulary of the properties *)

(** One call of a verb helper, with its arguments. *)
Inductive call : Type :=
  | Get (path : string)
  | Post (path : string) (payload : Json)
  | Put (path : string) (payload : Json)
  | Patch (path : string) (payload : Json)
  | Delete (path : string).

Definition helper (c : call) : M Json :=
  match c with
  | Get path => _get path
  | Post path payload => _post path payload
  | Put path payload => _put path payload
  | Patch path payload => _patch path payload
  | Delete path => _delete path
  end.

(** The method of the transport that the call needs, applied to the
    arguments the helper passes, if the transport has it. *)
Definition handler (wifi : WiFiManager) (c : call) (headers : gmap string string)
    : option (World -> World * edit * result Response) :=
  match c with
  | Get path => (fun f => f path headers) <$> wifi_get wifi
  | Post path payload => (fun f => f path payload headers) <$> wifi_post wifi
  | Put path payload => (fun f => f path payload headers) <$> wifi_put wifi
  | Patch path payload => (fun f => f path payload headers) <$> wifi_patch wifi
  | Delete path => (fun f => f path headers) <$> wifi_delete wifi
  end.

(** The request the call is recorded as. *)
Definition request_of (c : call) (headers : gmap string string) : request :=
  match c with
  | Get path =>
      {| req_verb := GET; req_url := path; req_json := None;
         req_headers := headers |}
  | Post path payload =>
      {| req_verb := POST; req_url := path; req_json := Some payload;
         req_headers := headers |}
  | Put path payload =>
      {| req_verb := PUT; req_url := path; req_json := Some payload;
         req_headers := headers |}
  | Patch path payload =>
      {| req_verb := PATCH; req_url := path; req_json := Some payload;
         req_headers := headers |}
  | Delete path =>
      {| req_verb := DELETE; req_url := path; req_json := None;
         req_headers := headers |}
  end.

(** The state once the events [evs] have happened, in which transport
    code made the edit [e] to the header dict and left the world as [w];
    the object is otherwise as it was. *)
Definition after (st : state) (e : edit) (w : World) (evs : list event)
    : state :=
  {| self := edited e (self st); net := w; log := log st ++ evs |}.

(** Two objects that differ at most in the contents of the header dict. *)
Definition same_but_header (o o' : IOT_HUB) : Prop :=
  _wifi o' = _wifi o
  /\ _iot_hub_url o' = _iot_hub_url o
  /\ _sas_token o' = _sas_token o
  /\ (is_Some (_azure_header o') <-> is_Some (_azure_header o)).

(** A computation that assigns none of the attributes of the client. *)
Definition readonly {A} (m : M A) : Prop :=
  forall st, same_but_header (self st) (self (fst (m st))).

(** Transport code that writes nothing into the header dict, and whose
    result, when there is one, satisfies [ok]. *)
Definition quiet_run {A} (run : World -> World * edit * result A)
    (ok : A -> Prop) : Prop :=
  forall w w' e res,
    run w = (w', e, res) ->
    (forall h, e h = h) /\ (forall a, res = inr a -> ok a).

Definition quiet_response (r : Response) : Prop :=
  quiet_run (json r) (fun _ => True).

(** A transport none of whose verb methods, and none of whose responses,
    writes into the header dict it is handed. *)
Definition quiet (wifi : WiFiManager) : Prop :=
  forall c headers f,
    handler wifi c headers = Some f -> quiet_run f quiet_response.

Definition supports (wifi : WiFiManager) (v : verb) : bool :=
  match v with
  | GET => bool_decide (is_Some (wifi_get wifi))
  | POST => bool_decide (is_Some (wifi_post wifi))
  | PUT => bool_decide (is_Some (wifi_put wifi))
  | PATCH => bool_decide (is_Some (wifi_patch wifi))
  | DELETE => bool_decide (is_Some (wifi_delete wifi))
  end.

Definition verbs : list verb := [GET; POST; PUT; PATCH; DELETE].

(** The object [__init__] leaves behind when it accepts the transport. *)
Definition constructed (wifi : WiFiManager) (iot_hub_name sas_token : string)
    : IOT_HUB :=
  {| _wifi := Some wifi;
     _iot_hub_url := Some ("https://" +:+ iot_hub_name +:+ ".azure-devices.net");
     _sas_token := Some sas_token;
     _azure_header := Some {[ "Authorization" := sas_token ]} |}.

(** ** The public operations, as one type *)

Inductive operation : Type :=
  | SendDeviceMessage (device_id : string) (message : Json)
  | GetDeviceTwin (device_id : string)
  | UpdateDeviceTwin (device_id : string) (properties : Json)
  | ReplaceDeviceTwin (device_id : string) (properties : Json)
  | GetDevices
  | GetDevice (device_id : string)
  | DeleteDevice (device_id : string).

(** The call of the method; [None] is Python's [None], what
    [send_device_message] and [delete_device] return. *)
Definition perform (o : operation) : M (option Json) :=
  match o with
  | SendDeviceMessage device_id message =>
      _ <- send_device_message device_id message ;; ret None
  | GetDeviceTwin device_id =>
      j <- get_device_twin device_id ;; ret (Some j)
  | UpdateDeviceTwin device_id properties =>
      j <- update_device_twin device_id properties ;; ret (Some j)
  | ReplaceDeviceTwin device_id properties =>
      j <- replace_device_twin device_id properties ;; ret (Some j)
  | GetDevices =>
      j <- get_devices ;; ret (Some j)
  | GetDevice device_id =>
      j <- get_device device_id ;; ret (Some j)
  | DeleteDevice device_id =>
      _ <- delete_device device_id ;; ret None
  end.

(** What the operation does with the decoded body [j]. *)
Definition returned (o : operation) (j : Json) : option Json :=
  match o with
  | SendDeviceMessage _ _ | DeleteDevice _ => None
  | _ => Some j
  end.

(** The helper call the operation makes on a client whose base URL is
    [base]. *)
Definition call_of (base : string) (o : operation) : call :=
  match o with
  | SendDeviceMessage d m =>
      Post (base +:+ "/devices/" +:+ d
            +:+ "/messages/events?api-version=2018-06-30") m
  | GetDeviceTwin d =>
      Get (base +:+ "/twins/" +:+ d +:+ "?api-version=2018-06-30")
  | UpdateDeviceTwin d p =>
      Patch (base +:+ "/twins/" +:+ d +:+ "?api-version=2018-06-30") p
  | ReplaceDeviceTwin d p =>
      Put (base +:+ "/twins/" +:+ d +:+ "?api-version-2018-06-30") p
  | GetDevices =>
      Get (base +:+ "/devices/?api-version=2018-06-30")
  | GetDevice d =>
      Get (base +:+ "/devices/" +:+ d +:+ "?api-version=2018-06-30")
  | DeleteDevice d =>
      Delete (base +:+ "/devices/" +:+ d +:+ "?api-version=2018-06-30")
  end.

(** The verb of a helper call, and the name of the transport method it
    looks up. *)
Definition verb_of (c : call) : verb :=
  match c with
  | Get _ => GET
  | Post _ _ => POST
  | Put _ _ => PUT
  | Patch _ _ => PATCH
  | Delete _ => DELETE
  end.

Definition method_name (v : verb) : string :=
  match v with
  | GET => "get"
  | POST => "post"
  | PUT => "put"
  | PATCH => "patch"
  | DELETE => "delete"
  end.

(** The same computation twice in a row, both results kept. *)
Definition twice {A} (m : M A) : M (A * A) :=
  a <- m ;; b <- m ;; ret (a, b).

(** The events one call of an operation may add to the trace: none, a
    request, or a request and then the decoding of its response. *)
Definition one_exchange (evs : list event) : Prop :=
  evs = [] \/ exists r, evs = [Request r] \/ evs = [Request r; JsonDecode].

End Model.

Arguments Response : clear implicits.
Arguments WiFiManager : clear implicits.
Arguments IOT_HUB : clear implicits.
Arguments state : clear implicits.
Arguments M : clear implicits.

(** ** A scripted transport, for running the client

    The world is the list of responses the hub will give next; each verb
    method consumes one and leaves the header dict alone.  [esp32] is an [ESPSPI_WiFiManager]; [bare] has
    that type and none of the verb methods; [session] has all of the verb
    methods and another type. *)

Module Scenario.

Definition canned : Type := (Z * string * result Json)%type.

Definition reply (r : canned) : Response (list canned) :=
  let '(code, why, body) := r in
  {| status_code := code; reason := why; json := fun w => (w, id, body) |}.

Definition answer (w : list canned)
    : list canned * edit * result (Response (list canned)) :=
  match w with
  | [] => ([], id, inl (OtherError "OSError" "no response"))
  | r :: rest => (rest, id, inr (reply r))
  end.

Definition esp32_type : string :=
  "<class 'adafruit_esp32spi.adafruit_esp32spi_wifimanager.ESPSPI_WiFiManager'>".

Definition esp32 : WiFiManager (list canned) :=
  {| type_str := esp32_type;
     wifi_get := Some (fun _ _ => answer);
     wifi_post := Some (fun _ _ _ => answer);
     wifi_put := Some (fun _ _ _ => answer);
     wifi_patch := Some (fun _ _ _ => answer);
     wifi_delete := Some (fun _ _ => answer) |}.

Definition bare : WiFiManager (list canned) :=
  {| type_str := esp32_type;
     wifi_get := None; wifi_post := None; wifi_put := None;
     wifi_patch := None; wifi_delete := None |}.

Definition session : WiFiManager (list canned) :=
  {| type_str := "<class 'Session'>";
     wifi_get := Some (fun _ _ => answer);
     wifi_post := Some (fun _ _ _ => answer);
     wifi_put := Some (fun _ _ _ => answer);
     wifi_patch := Some (fun _ _ _ => answer);
     wifi_delete := Some (fun _ _ => answer) |}.

(** Before [IOT_HUB(...)]: a new object, nothing sent yet. *)
Definition start (w : list canned) : state (list canned) :=
  {| self := blank; net := w; log := [] |}.

Definition token : string := "SharedAccessSignature sr=...".

(** The client of the scenario, on a hub that will answer [w]. *)
Definition myhub (w : list canned) : state (list canned) :=
  fst (__init__ esp32 "myhub" token (start w)).

Definition auth : gmap string string := {[ "Authorization" := token ]}.

Definition device_url : string :=
  "https://myhub.azure-devices.net/devices/sensor1?api-version=2018-06-30".

Definition events_url : string :=
  "https://myhub.azure-devices.net/devices/sensor1/messages/events?api-version=2018-06-30".

Definition not_found : canned := (404, "Not Found", inr JNull).
Definition no_content : canned :=
  (204, "No Content", inl (ValueError "syntax error in JSON")).
Definition unavailable : canned :=
  (503, "Service Unavailable", inr (JDict [("Message", JStr "busy")])).
Definition found : canned :=
  (200, "OK", inr (JDict [("deviceId", JStr "sensor1")])).

Definition base_url : string := "https://myhub.azure-devices.net".

Definition twin_url : string :=
  "https://myhub.azure-devices.net/twins/sensor1?api-version=2018-06-30".

Definition devices_url : string :=
  "https://myhub.azure-devices.net/devices/?api-version=2018-06-30".

Definition twin (version : Z) : Json :=
  JDict [("deviceId", JStr "sensor1"); ("version", JNum version)].

Definition desired : Json :=
  JDict [("properties", JDict [("desired", JDict [("interval", JNum 30)])])].

Definition twin_reply (version : Z) : canned := (200, "OK", inr (twin version)).

Definition registry : canned := (200, "OK", inr (JList [twin 1])).

(** A client built on [bare]: accepted by [__init__], with no verb. *)
Definition barehub (w : list canned) : state (list canned) :=
  fst (__init__ bare "myhub" token (start w)).

(** A transport of the right type whose radio is down: every verb raises. *)
Definition down (w : list canned)
    : list canned * edit * result (Response (list canned)) :=
  (w, id, inl (OtherError "RuntimeError" "Failed to request hostname")).

Definition offline : WiFiManager (list canned) :=
  {| type_str := esp32_type;
     wifi_get := Some (fun _ _ => down);
     wifi_post := Some (fun _ _ _ => down);
     wifi_put := Some (fun _ _ _ => down);
     wifi_patch := Some (fun _ _ _ => down);
     wifi_delete := Some (fun _ _ => down) |}.

Definition offlinehub (w : list canned) : state (list canned) :=
  fst (__init__ offline "myhub" token (start w)).

(** A transport of the right type that fills in a default header in the
    dict it is handed, as an HTTP library may, before it sends. *)
Definition stamp : edit := fun h => <[ "User-Agent" := "esp32spi" ]> h.

Definition stamping (w : list canned)
    : list canned * edit * result (Response (list canned)) :=
  match w with
  | [] => ([], stamp, inl (OtherError "OSError" "no response"))
  | r :: rest => (rest, stamp, inr (reply r))
  end.

Definition chatty : WiFiManager (list canned) :=
  {| type_str := esp32_type;
     wifi_get := Some (fun _ _ => stamping);
     wifi_post := Some (fun _ _ _ => stamping);
     wifi_put := Some (fun _ _ _ => stamping);
     wifi_patch := Some (fun _ _ _ => stamping);
     wifi_delete := Some (fun _ _ => stamping) |}.

Definition chattyhub (w : list canned) : state (list canned) :=
  fst (__init__ chatty "myhub" token (start w)).

End Scenario.

(** * Properties *)

Example format_twin_path (base d : string) :
  format "{0}/twins/{1}?api-version={2}" [PyStr base; PyStr d; PyStr AZURE_API_VER]
  = inr (base +:+ "/twins/" +:+ d +:+ "?api-version=2018-06-30").
Proof. reflexivity. Qed.

Example format_status_message :
  format "Error {0}: {1}" [PyInt 429; PyStr "Too Many Requests"]
  = inr "Error 429: Too Many Requests".
Proof. reflexivity. Qed.

Example format_missing_argument :
  format "{0}/devices/?api-version={1}" [PyStr "u"]
  = inl (IndexError "tuple index out of range").
Proof. reflexivity. Qed.

Example str_in_type_names :
  str_in "ESPSPI_WiFiManager" "<class 'ESPSPI_WiFiManager'>" = true
  /\ str_in "ESPSPI_WiFiManager" "<class 'Session'>" = false
  /\ str_in "" "" = true.
Proof. repeat split; reflexivity. Qed.

Lemma append_empty_r (s : string) : s +:+ "" = s.
Proof.
  induction s as [| a s IH]; [reflexivity |].
  change (String a (s +:+ "") = String a s). by rewrite IH.
Qed.

Lemma append_cons (a : ascii) (s t : string) :
  String a s +:+ t = String a (s +:+ t).
Proof. reflexivity. Qed.

Lemma prefix_append (n h : string) :
  String.prefix n h = true <-> exists b, h = n +:+ b.
Proof.
  revert h. induction n as [| a n IH]; intros h.
  - split; [intros _; by exists h | by destruct h].
  - destruct h as [| c h].
    + split; [discriminate | intros [b Hb]; discriminate Hb].
    + cbn [String.prefix]. destruct (Ascii.ascii_dec a c) as [-> | Hne].
      * rewrite IH. split; intros [b Hb]; exists b.
        -- by rewrite append_cons, <- Hb.
        -- rewrite append_cons in Hb. by injection Hb.
      * split; [discriminate |].
        intros [b Hb]. rewrite append_cons in Hb. injection Hb as Hc _.
        by destruct Hne.
Qed.

(** [str_in] is occurrence as a substring. *)
Lemma str_in_occurs (n h : string) :
  str_in n h = true <-> exists a b, h = a +:+ n +:+ b.
Proof.
  induction h as [| c h IH]; cbn [str_in]; rewrite orb_true_iff.
  - rewrite prefix_append. split.
    + intros [[b Hb] | Hf]; [by exists "", b | discriminate].
    + intros [[| c a] [b Hb]]; [left; by exists b | discriminate Hb].
  - rewrite prefix_append, IH. split.
    + intros [[b Hb] | [a [b Hb]]]; [by exists "", b |].
      exists (String c a), b. by rewrite append_cons, <- Hb.
    + intros [[| c' a] [b Hb]]; [left; by exists b |].
      right. rewrite append_cons in Hb. injection Hb as _ Hb. by exists a, b.
Qed.

Lemma error_set_cases (c : Z) :
  c ∈ error_set <->
  c = 400 \/ c = 401 \/ c = 403 \/ c = 404 \/ c = 412 \/ c = 429 \/ c = 500.
Proof.
  unfold error_set. rewrite !elem_of_union, !elem_of_singleton. tauto.
Qed.

Lemma format_error_message (c : Z) (r : string) :
  format "Error {0}: {1}" [PyInt c; PyStr r]
  = inr ("Error " +:+ str (PyInt c) +:+ ": " +:+ r).
Proof.
  change (format "Error {0}: {1}" [PyInt c; PyStr r])
    with (inr (A := exn) ("Error " +:+ str (PyInt c) +:+ ": " +:+ r +:+ "")).
  by rewrite append_empty_r.
Qed.

Lemma parse_http_status_listed (c : Z) (r : string) :
  c ∈ error_set ->
  _parse_http_status c r
  = inl (TypeError ("Error " +:+ str (PyInt c) +:+ ": " +:+ r)).
Proof.
  rewrite error_set_cases.
  unfold _parse_http_status, AZURE_HTTP_ERROR_CODES.
  intros H; repeat (destruct H as [-> | H]); subst; cbn [parse_http_status_loop Z.eqb Pos.eqb];
    by rewrite format_error_message.
Qed.

Lemma parse_http_status_unlisted (c : Z) (r : string) :
  c ∉ error_set -> _parse_http_status c r = inr tt.
Proof.
  rewrite error_set_cases. intros H.
  unfold _parse_http_status, AZURE_HTTP_ERROR_CODES.
  cbn [parse_http_status_loop].
  repeat match goal with
         | |- context [Z.eqb ?a c] =>
             destruct (Z.eqb_spec a c); [exfalso; apply H; lia |]
         end.
  reflexivity.
Qed.

(** C2: the status check raises exactly on the codes of the fixed set
    {400, 401, 403, 404, 412, 429, 500}, and returns normally on every
    other code, 503 among them. *)
Theorem parse_http_status_raises_iff_listed (c : Z) (r : string) :
  (raised (_parse_http_status c r) = true <-> c ∈ error_set)
  /\ (_parse_http_status c r = inr tt <-> c ∉ error_set)
  /\ _parse_http_status 503 r = inr tt.
Proof.
  destruct (decide (c ∈ error_set)) as [Hin | Hout].
  - rewrite (parse_http_status_listed c r Hin). simpl.
    repeat split; try done.
  - rewrite (parse_http_status_unlisted c r Hout). simpl.
    repeat split; try done.
Qed.

Section Properties.

Context {World : Type}.

Implicit Types (st : state World) (wifi : WiFiManager World).
Implicit Types (headers : gmap string string) (c : call).

(** What a verb helper does on an object that has its transport and its
    header, when the transport has the method. *)
Lemma helper_run st wifi headers c f :
  _wifi (self st) = Some wifi ->
  _azure_header (self st) = Some headers ->
  handler wifi c headers = Some f ->
  helper c st =
    match f (net st) with
    | (w, ed, inl e) => (after st ed w [Request (request_of c headers)], inl e)
    | (w, ed, inr response) =>
        match _parse_http_status (status_code response) (reason response) with
        | inl e => (after st ed w [Request (request_of c headers)], inl e)
        | inr _ =>
            decode response (after st ed w [Request (request_of c headers)])
        end
    end.
Proof.
  intros Hwifi Hhdr Hf.
  destruct c; cbn [handler] in Hf;
    match type of Hf with
    | _ <$> ?m = _ => destruct m as [g |] eqn:Hg; [| discriminate]
    end;
    cbn in Hf; injection Hf as <-;
    unfold helper, _get, _post, _put, _patch, _delete, bind, getattr;
    rewrite Hwifi, Hg; cbn [method ret]; rewrite Hhdr;
    unfold send, lift, request_of;
    match goal with
    | |- _ = match ?t with _ => _ end => destruct t as [[w ed] [e | response]]
    end; try reflexivity;
    destruct (_parse_http_status (status_code response) (reason response));
    reflexivity.
Qed.

(** Two edits in a row are one edit. *)
Lemma edited_edited (e1 e2 : edit) (o : IOT_HUB World) :
  edited e2 (edited e1 o) = edited (e2 ∘ e1) o.
Proof. unfold edited. cbn. by destruct (_azure_header o). Qed.

Lemma decode_after st response e w evs w' e' body :
  json response w = (w', e', body) ->
  decode response (after st e w evs)
  = (after st (e' ∘ e) w' (evs ++ [JsonDecode]), body).
Proof.
  intros H. unfold decode, after. cbn [net self log]. rewrite H.
  by rewrite edited_edited, <- app_assoc.
Qed.

Lemma decodes_app (l1 l2 : list event) :
  decodes (l1 ++ l2) = (decodes l1 + decodes l2)%nat.
Proof. unfold decodes. by rewrite filter_app, length_app. Qed.

Lemma requests_app (l1 l2 : list event) :
  requests (l1 ++ l2) = requests l1 ++ requests l2.
Proof. unfold requests. apply omap_app. Qed.

(** C3: when the transport answers any of the five verb helpers with a
    response whose status code is in {400, 401, 403, 404, 412, 429, 500},
    the helper raises the error built from that code and the response's
    reason, and the body's JSON decoder is not called: the trace gains the
    request and nothing else.  The world, and the header dict, are as the
    verb method left them. *)
Theorem helper_raises_on_listed_status st wifi headers c f w ed response :
  _wifi (self st) = Some wifi ->
  _azure_header (self st) = Some headers ->
  handler wifi c headers = Some f ->
  f (net st) = (w, ed, inr response) ->
  status_code response ∈ error_set ->
  helper c st
  = (after st ed w [Request (request_of c headers)],
     inl (TypeError ("Error " +:+ str (PyInt (status_code response))
                     +:+ ": " +:+ reason response)))
  /\ decodes (log (fst (helper c st))) = decodes (log st).
Proof.
  intros Hwifi Hhdr Hf Hans Hin.
  rewrite (helper_run st wifi headers c f Hwifi Hhdr Hf), Hans.
  rewrite (parse_http_status_listed _ _ Hin).
  split; [reflexivity |].
  cbn [fst after log]. rewrite decodes_app.
  change (decodes [Request (request_of c headers)]) with 0%nat. lia.
Qed.

(** C4: when the transport answers any of the five verb helpers with a
    response whose status code is outside the error set, the helper calls
    the response's JSON decoder, once, and its outcome is the decoder's
    outcome [body] as it is: the decoded value when there is one, the
    decoder's own exception when the body does not parse. *)
Theorem helper_returns_decoder_outcome st wifi headers c f
    w ed response w' ed' body :
  _wifi (self st) = Some wifi ->
  _azure_header (self st) = Some headers ->
  handler wifi c headers = Some f ->
  f (net st) = (w, ed, inr response) ->
  status_code response ∉ error_set ->
  json response w = (w', ed', body) ->
  helper c st
  = (after st (ed' ∘ ed) w' [Request (request_of c headers); JsonDecode],
     body).
Proof.
  intros Hwifi Hhdr Hf Hans Hout Hbody.
  rewrite (helper_run st wifi headers c f Hwifi Hhdr Hf), Hans.
  rewrite (parse_http_status_unlisted _ _ Hout).
  exact (decode_after st response ed w _ w' ed' body Hbody).
Qed.

(** Whatever the transport answers, a verb helper sends one request. *)
Lemma helper_requests st wifi headers c f :
  _wifi (self st) = Some wifi ->
  _azure_header (self st) = Some headers ->
  handler wifi c headers = Some f ->
  requests (log (fst (helper c st)))
  = requests (log st) ++ [request_of c headers].
Proof.
  intros Hwifi Hhdr Hf.
  rewrite (helper_run st wifi headers c f Hwifi Hhdr Hf).
  destruct (f (net st)) as [[w ed] [e | response]].
  - cbn [fst after log]. by rewrite requests_app.
  - destruct (_parse_http_status _ _).
    + cbn [fst after log]. by rewrite requests_app.
    + destruct (json response w) as [[w' ed'] body] eqn:Hbody.
      rewrite (decode_after st response ed w _ w' ed' body Hbody).
      cbn [fst after log]. by rewrite requests_app.
Qed.

Lemma init_accepts wifi hub tok st :
  str_in "ESPSPI_WiFiManager" (type_str wifi) = true ->
  __init__ wifi hub tok st
  = ({| self := constructed wifi hub tok; net := net st; log := log st |},
     inr tt).
Proof. intros H. unfold __init__, bind. by rewrite H. Qed.

Lemma init_rejects wifi hub tok st :
  str_in "ESPSPI_WiFiManager" (type_str wifi) = false ->
  __init__ wifi hub tok st
  = (st, inl (TypeError "This library requires a WiFiManager object.")).
Proof. intros H. unfold __init__, bind. by rewrite H. Qed.

Lemma get_device_run st url d :
  _iot_hub_url (self st) = Some url ->
  get_device d st
  = helper (Get (url +:+ "/devices/" +:+ d +:+ "?api-version=" +:+ AZURE_API_VER)) st.
Proof. intros H. unfold get_device, bind, getattr. by rewrite H. Qed.

Lemma send_device_message_run st url d m :
  _iot_hub_url (self st) = Some url ->
  send_device_message d m st
  = match helper (Post (url +:+ "/devices/" +:+ d
                        +:+ "/messages/events?api-version=" +:+ AZURE_API_VER) m) st
    with
    | (st', inl e) => (st', inl e)
    | (st', inr _) => (st', inr tt)
    end.
Proof. intros H. unfold send_device_message, bind, getattr. by rewrite H. Qed.

Lemma replace_device_twin_run st url d properties :
  _iot_hub_url (self st) = Some url ->
  replace_device_twin d properties st
  = helper (Put (url +:+ "/twins/" +:+ d +:+ "?api-version-" +:+ AZURE_API_VER)
                properties) st.
Proof. intros H. unfold replace_device_twin, bind, getattr. by rewrite H. Qed.

(** C6: on a client constructed with hub name [hub] and token [tok],
    [get_device d] sends one request, a GET of
    [https://{hub}.azure-devices.net/devices/{d}?api-version=2018-06-30]
    whose headers map [Authorization] to [tok]; when the response's status
    is outside the error set, the call's outcome is the outcome of
    decoding the body. *)
Theorem get_device_sends_one_get wifi hub tok d st0 f w ed answer :
  str_in "ESPSPI_WiFiManager" (type_str wifi) = true ->
  wifi_get wifi = Some f ->
  let st := fst (__init__ wifi hub tok st0) in
  let url := ("https://" +:+ hub +:+ ".azure-devices.net")
             +:+ "/devices/" +:+ d +:+ "?api-version=" +:+ "2018-06-30" in
  let headers : gmap string string := {[ "Authorization" := tok ]} in
  f url headers (net st0) = (w, ed, answer) ->
  requests (log (fst (get_device d st)))
  = requests (log st0)
    ++ [ {| req_verb := GET; req_url := url; req_json := None;
            req_headers := headers |} ]
  /\ headers !! "Authorization" = Some tok
  /\ (forall response w' ed' body,
        answer = inr response ->
        status_code response ∉ error_set ->
        json response w = (w', ed', body) ->
        snd (get_device d st) = body).
Proof.
  intros Hty Hget st url headers Hans.
  subst st. rewrite (init_accepts wifi hub tok st0 Hty). cbn [fst].
  set (st := {| self := constructed wifi hub tok; net := net st0; log := log st0 |}).
  assert (Hh : handler wifi (Get url) headers = Some (f url headers))
    by (cbn [handler]; by rewrite Hget).
  rewrite (get_device_run st _ d eq_refl).
  change (_ +:+ "/devices/" +:+ d +:+ "?api-version=" +:+ AZURE_API_VER) with url.
  split; [| split].
  - exact (helper_requests st wifi headers (Get url) _ eq_refl eq_refl Hh).
  - apply lookup_singleton_eq.
  - intros response w' ed' body -> Hout Hbody.
    rewrite (helper_run st wifi headers (Get url) _ eq_refl eq_refl Hh).
    change (net st) with (net st0). rewrite Hans.
    rewrite (parse_http_status_unlisted _ _ Hout).
    by rewrite (decode_after st response ed w _ w' ed' body Hbody).
Qed.

(** C7, as the code has it: [send_device_message d m] calls the [post]
    method of the transport once, with [m] and the path
    [{base}/devices/{d}/messages/events?api-version=2018-06-30], and what
    it does next is decided by the answer.  If the transport raises, so
    does the call.  If the status is in the error set, the call raises
    the status error and decodes nothing.  Otherwise the body is decoded:
    if that raises, so does the call, and if it gives a value, whatever
    the value, the call returns [None]. *)
Theorem send_device_message_posts_once st wifi headers url f d m w ed answer :
  _wifi (self st) = Some wifi ->
  _iot_hub_url (self st) = Some url ->
  _azure_header (self st) = Some headers ->
  wifi_post wifi = Some f ->
  let path := url +:+ "/devices/" +:+ d
              +:+ "/messages/events?api-version=" +:+ "2018-06-30" in
  let sent := Request {| req_verb := POST; req_url := path;
                         req_json := Some m; req_headers := headers |} in
  f path m headers (net st) = (w, ed, answer) ->
  send_device_message d m st
  = match answer with
    | inl e => (after st ed w [sent], inl e)
    | inr response =>
        if decide (status_code response ∈ error_set) then
          (after st ed w [sent],
           inl (TypeError ("Error " +:+ str (PyInt (status_code response))
                           +:+ ": " +:+ reason response)))
        else
          let '(w', ed', body) := json response w in
          (after st (ed' ∘ ed) w' [sent; JsonDecode],
           match body with
           | inl e => inl e
           | inr _ => inr tt
           end)
    end.
Proof.
  intros Hwifi Hurl Hhdr Hpost path sent Hans.
  assert (Hh : handler wifi (Post path m) headers = Some (f path m headers))
    by (cbn [handler]; by rewrite Hpost).
  rewrite (send_device_message_run st url d m Hurl).
  change (_ +:+ "/devices/" +:+ d +:+ _ +:+ AZURE_API_VER) with path.
  rewrite (helper_run st wifi headers (Post path m) _ Hwifi Hhdr Hh), Hans.
  destruct answer as [e | response]; [reflexivity |].
  destruct (decide (status_code response ∈ error_set)) as [Hin | Hout].
  - by rewrite (parse_http_status_listed _ _ Hin).
  - rewrite (parse_http_status_unlisted _ _ Hout).
    destruct (json response w) as [[w' ed'] body] eqn:Hbody.
    rewrite (decode_after st response ed w _ w' ed' body Hbody).
    by destruct body.
Qed.

(** C1, what the code does: [replace_device_twin d properties] sends one
    PUT whose URL is [{base}/twins/{d}?api-version-2018-06-30], with a
    hyphen where the other twin operations have [=]; that URL differs from
    [{base}/twins/{d}?api-version=2018-06-30]. *)
Theorem replace_device_twin_url st wifi headers url f d properties :
  _wifi (self st) = Some wifi ->
  _iot_hub_url (self st) = Some url ->
  _azure_header (self st) = Some headers ->
  wifi_put wifi = Some f ->
  requests (log (fst (replace_device_twin d properties st)))
  = requests (log st)
    ++ [ {| req_verb := PUT;
            req_url := url +:+ "/twins/" +:+ d +:+ "?api-version-2018-06-30";
            req_json := Some properties; req_headers := headers |} ]
  /\ url +:+ "/twins/" +:+ d +:+ "?api-version-2018-06-30"
     <> url +:+ "/twins/" +:+ d +:+ "?api-version=" +:+ AZURE_API_VER.
Proof.
  intros Hwifi Hurl Hhdr Hput. split.
  - rewrite (replace_device_twin_run st url d properties Hurl).
    refine (helper_requests st wifi headers (Put _ properties) (f _ properties headers)
              Hwifi Hhdr _).
    cbn [handler]. by rewrite Hput.
  - intros Heq.
    apply (inj (String.app url)) in Heq.
    apply (inj (String.app "/twins/")) in Heq.
    apply (inj (String.app d)) in Heq.
    discriminate Heq.
Qed.

(** C9: the rejection of the transport by [__init__] and the failure of
    the status check raise exceptions of one class, [TypeError]; their
    messages differ. *)
Theorem both_failures_are_TypeError wifi hub tok st code why :
  str_in "ESPSPI_WiFiManager" (type_str wifi) = false ->
  code ∈ error_set ->
  exists msg1 msg2,
    snd (__init__ wifi hub tok st) = inl (TypeError msg1)
    /\ _parse_http_status code why = inl (TypeError msg2)
    /\ class_of (TypeError msg1) = class_of (TypeError msg2)
    /\ msg1 <> msg2.
Proof.
  intros Hty Hin.
  rewrite (init_rejects wifi hub tok st Hty).
  rewrite (parse_http_status_listed code why Hin).
  eexists _, _. repeat split. discriminate.
Qed.

(** C10: whether [__init__] accepts the transport is decided by whether
    ['ESPSPI_WiFiManager'] occurs in the name of its type, and by nothing
    else: a transport with that name and none of the five verb methods is
    accepted, one with all five and another name is rejected. *)
Theorem init_decided_by_type_name wifi hub tok st :
  (snd (__init__ wifi hub tok st) = inr tt
   <-> exists a b, type_str wifi = a +:+ "ESPSPI_WiFiManager" +:+ b)
  /\ (snd (__init__ wifi hub tok st) = inr tt
      <-> str_in "ESPSPI_WiFiManager" (type_str wifi) = true)
  /\ (snd (__init__ wifi hub tok st)
      = inl (TypeError "This library requires a WiFiManager object.")
      <-> str_in "ESPSPI_WiFiManager" (type_str wifi) = false)
  /\ (forallb (fun v => negb (supports wifi v)) verbs = true ->
      str_in "ESPSPI_WiFiManager" (type_str wifi) = true ->
      snd (__init__ wifi hub tok st) = inr tt)
  /\ (forallb (supports wifi) verbs = true ->
      str_in "ESPSPI_WiFiManager" (type_str wifi) = false ->
      snd (__init__ wifi hub tok st)
      = inl (TypeError "This library requires a WiFiManager object.")).
Proof.
  rewrite <- str_in_occurs.
  destruct (str_in "ESPSPI_WiFiManager" (type_str wifi)) eqn:Hty.
  - rewrite (init_accepts wifi hub tok st Hty). cbn [snd].
    repeat split; done.
  - rewrite (init_rejects wifi hub tok st Hty). cbn [snd].
    repeat split; done.
Qed.

(** C5, as the code has it: [__init__] raises
    ["This library requires a WiFiManager object."] when the name of the
    transport's type does not contain ['ESPSPI_WiFiManager'], leaving the
    object without attributes, and otherwise sets the four attributes;
    either way the world and the trace are untouched: nothing is sent. *)
Theorem init_checks_type_name_and_sends_nothing wifi hub tok st :
  __init__ wifi hub tok st
  = (if str_in "ESPSPI_WiFiManager" (type_str wifi)
     then ({| self := constructed wifi hub tok; net := net st; log := log st |},
           inr tt)
     else (st, inl (TypeError "This library requires a WiFiManager object.")))
  /\ net (fst (__init__ wifi hub tok st)) = net st
  /\ log (fst (__init__ wifi hub tok st)) = log st.
Proof.
  destruct (str_in "ESPSPI_WiFiManager" (type_str wifi)) eqn:Hty.
  - by rewrite (init_accepts wifi hub tok st Hty).
  - by rewrite (init_rejects wifi hub tok st Hty).
Qed.

End Properties.

(** * The operations the callers see *)

Section Operations.

Context {World : Type}.

Implicit Types (st : state World) (wifi : WiFiManager World).
Implicit Types (headers : gmap string string) (c : call) (o : operation).

(** The five path templates of the source, filled in. *)
Lemma format_paths (base d : string) :
  format "{0}/devices/{1}/messages/events?api-version={2}"
         [PyStr base; PyStr d; PyStr AZURE_API_VER]
  = inr (base +:+ "/devices/" +:+ d +:+ "/messages/events?api-version=2018-06-30")
  /\ format "{0}/twins/{1}?api-version={2}"
            [PyStr base; PyStr d; PyStr AZURE_API_VER]
     = inr (base +:+ "/twins/" +:+ d +:+ "?api-version=2018-06-30")
  /\ format "{0}/twins/{1}?api-version-{2}"
            [PyStr base; PyStr d; PyStr AZURE_API_VER]
     = inr (base +:+ "/twins/" +:+ d +:+ "?api-version-2018-06-30")
  /\ format "{0}/devices/?api-version={1}" [PyStr base; PyStr AZURE_API_VER]
     = inr (base +:+ "/devices/?api-version=2018-06-30")
  /\ format "{0}/devices/{1}?api-version={2}"
            [PyStr base; PyStr d; PyStr AZURE_API_VER]
     = inr (base +:+ "/devices/" +:+ d +:+ "?api-version=2018-06-30").
Proof. repeat split; reflexivity. Qed.

(** Each public method formats its path and hands it to one helper. *)
Lemma perform_run st base o :
  _iot_hub_url (self st) = Some base ->
  perform o st
  = match helper (call_of base o) st with
    | (st', inl e) => (st', inl e)
    | (st', inr j) => (st', inr (returned o j))
    end.
Proof.
  intros H.
  destruct o as [d m | d | d p | d p | | d | d];
    try destruct (format_paths base d) as (Fev & Ftw & Frp & Fls & Fdv);
    try destruct (format_paths base "") as (_ & _ & _ & Fls & _);
    cbn [perform call_of returned helper];
    unfold send_device_message, get_device_twin, update_device_twin,
      replace_device_twin, get_devices, get_device, delete_device,
      bind, getattr;
    rewrite H;
    rewrite ?Fev, ?Ftw, ?Frp, ?Fls, ?Fdv; cbn [lift];
    match goal with
    | |- context [_get ?a st] => destruct (_get a st) as [st' [e | j]]
    | |- context [_post ?a ?b st] => destruct (_post a b st) as [st' [e | j]]
    | |- context [_put ?a ?b st] => destruct (_put a b st) as [st' [e | j]]
    | |- context [_patch ?a ?b st] => destruct (_patch a b st) as [st' [e | j]]
    | |- context [_delete ?a st] => destruct (_delete a st) as [st' [e | j]]
    end; reflexivity.
Qed.

(** A helper on an object without [_wifi], without the method it needs,
    or without [_azure_header], stops at the attribute lookup. *)
Lemma helper_no_wifi st c :
  _wifi (self st) = None ->
  helper c st = (st, inl (AttributeError "_wifi")).
Proof.
  intros H.
  destruct c; unfold helper, _get, _post, _put, _patch, _delete, bind, getattr;
    by rewrite H.
Qed.

Lemma helper_no_method st wifi c :
  _wifi (self st) = Some wifi ->
  supports wifi (verb_of c) = false ->
  helper c st = (st, inl (AttributeError (method_name (verb_of c)))).
Proof.
  intros H Hs.
  destruct c; cbn [supports verb_of] in Hs;
    apply bool_decide_eq_false in Hs;
    unfold helper, _get, _post, _put, _patch, _delete, bind, getattr;
    rewrite H;
    match goal with
    | |- context [method _ ?m] => destruct m; [destruct Hs; by eexists |]
    end; reflexivity.
Qed.

Lemma helper_no_header st wifi c :
  _wifi (self st) = Some wifi ->
  supports wifi (verb_of c) = true ->
  _azure_header (self st) = None ->
  helper c st = (st, inl (AttributeError "_azure_header")).
Proof.
  intros H Hs Hh.
  destruct c; cbn [supports verb_of] in Hs;
    apply bool_decide_eq_true in Hs; destruct Hs as [g Hg];
    unfold helper, _get, _post, _put, _patch, _delete, bind, getattr;
    rewrite H, Hg; cbn [method ret]; by rewrite Hh.
Qed.

Lemma supports_handler wifi c headers :
  supports wifi (verb_of c) = true ->
  exists f, handler wifi c headers = Some f.
Proof.
  intros Hs.
  destruct c; cbn [supports verb_of] in Hs;
    apply bool_decide_eq_true in Hs; destruct Hs as [g Hg];
    cbn [handler]; rewrite Hg; by eexists.
Qed.

(** What one helper call adds to the trace, in any state. *)
Lemma helper_trace st c :
  exists evs,
    log (fst (helper c st)) = log st ++ evs
    /\ (evs = []
        \/ exists headers,
             _azure_header (self st) = Some headers
             /\ (evs = [Request (request_of c headers)]
                 \/ evs = [Request (request_of c headers); JsonDecode])).
Proof.
  destruct (_wifi (self st)) as [wifi |] eqn:Hwifi;
    [| exists []; rewrite (helper_no_wifi st c Hwifi), app_nil_r; by split; [| left]].
  destruct (supports wifi (verb_of c)) eqn:Hs;
    [| exists []; rewrite (helper_no_method st wifi c Hwifi Hs), app_nil_r;
       by split; [| left]].
  destruct (_azure_header (self st)) as [headers |] eqn:Hh;
    [| exists []; rewrite (helper_no_header st wifi c Hwifi Hs Hh), app_nil_r;
       by split; [| left]].
  destruct (supports_handler wifi c headers Hs) as [f Hf].
  rewrite (helper_run st wifi headers c f Hwifi Hh Hf).
  destruct (f (net st)) as [[w ed] [e | response]].
  - exists [Request (request_of c headers)]. split; [done |].
    right. exists headers. split; [done | by left].
  - destruct (_parse_http_status _ _).
    + exists [Request (request_of c headers)]. split; [done |].
      right. exists headers. split; [done | by left].
    + destruct (json response w) as [[w' ed'] body] eqn:Hbody.
      rewrite (decode_after st response ed w _ w' ed' body Hbody).
      exists [Request (request_of c headers); JsonDecode].
      split; [done |].
      right. exists headers. split; [done | by right].
Qed.

Lemma perform_no_url st o :
  _iot_hub_url (self st) = None ->
  perform o st = (st, inl (AttributeError "_iot_hub_url")).
Proof.
  intros H.
  destruct o; cbn [perform];
    unfold send_device_message, get_device_twin, update_device_twin,
      replace_device_twin, get_devices, get_device, delete_device,
      bind, getattr;
    by rewrite H.
Qed.

Ltac twin_like H :=
  unfold get_device_twin, update_device_twin, get_devices, delete_device,
    bind, getattr;
  rewrite H;
  first [ rewrite (proj1 (proj2 (format_paths _ _)))
        | rewrite (proj1 (proj2 (proj2 (proj2 (format_paths _ "")))))
        | rewrite (proj2 (proj2 (proj2 (proj2 (format_paths _ _))))) ];
  cbn [lift].

Lemma get_device_twin_run st base d :
  _iot_hub_url (self st) = Some base ->
  get_device_twin d st = helper (call_of base (GetDeviceTwin d)) st.
Proof. intros H. by twin_like H. Qed.

Lemma update_device_twin_run st base d properties :
  _iot_hub_url (self st) = Some base ->
  update_device_twin d properties st
  = helper (call_of base (UpdateDeviceTwin d properties)) st.
Proof. intros H. by twin_like H. Qed.

Lemma get_devices_run st base :
  _iot_hub_url (self st) = Some base ->
  get_devices st = helper (call_of base GetDevices) st.
Proof. intros H. by twin_like H. Qed.

Lemma delete_device_run st base d :
  _iot_hub_url (self st) = Some base ->
  delete_device d st
  = match helper (call_of base (DeleteDevice d)) st with
    | (st', inl e) => (st', inl e)
    | (st', inr _) => (st', inr tt)
    end.
Proof. intros H. by twin_like H. Qed.

(** A helper whose response has a status outside the error set. *)
Lemma helper_decodes st wifi headers c f w ed response w' ed' body :
  _wifi (self st) = Some wifi ->
  _azure_header (self st) = Some headers ->
  handler wifi c headers = Some f ->
  f (net st) = (w, ed, inr response) ->
  status_code response ∉ error_set ->
  json response w = (w', ed', body) ->
  helper c st
  = (after st (ed' ∘ ed) w' [Request (request_of c headers); JsonDecode],
     body).
Proof.
  intros Hwifi Hhdr Hf Hans Hout Hbody.
  rewrite (helper_run st wifi headers c f Hwifi Hhdr Hf), Hans.
  rewrite (parse_http_status_unlisted _ _ Hout).
  exact (decode_after st response ed w _ w' ed' body Hbody).
Qed.

(** X1: [get_device_twin d] sends one GET of
    [{base}/twins/{d}?api-version=2018-06-30] with the stored header,
    whatever the transport answers; when the response's status is outside
    the error set, the call's outcome is the outcome of decoding it. *)
Theorem get_device_twin_sends_one_get st wifi headers base f d :
  _wifi (self st) = Some wifi ->
  _iot_hub_url (self st) = Some base ->
  _azure_header (self st) = Some headers ->
  wifi_get wifi = Some f ->
  let url := base +:+ "/twins/" +:+ d +:+ "?api-version=2018-06-30" in
  requests (log (fst (get_device_twin d st)))
  = requests (log st)
    ++ [ {| req_verb := GET; req_url := url; req_json := None;
            req_headers := headers |} ]
  /\ (forall w ed response w' ed' body,
        f url headers (net st) = (w, ed, inr response) ->
        status_code response ∉ error_set ->
        json response w = (w', ed', body) ->
        snd (get_device_twin d st) = body).
Proof.
  intros Hwifi Hurl Hhdr Hget url.
  assert (Hh : handler wifi (Get url) headers = Some (f url headers))
    by (cbn [handler]; by rewrite Hget).
  rewrite (get_device_twin_run st base d Hurl). cbn [call_of]. fold url.
  split.
  - exact (helper_requests st wifi headers (Get url) _ Hwifi Hhdr Hh).
  - intros w ed response w' ed' body Hans Hout Hbody.
    by rewrite (helper_decodes st wifi headers (Get url) _ w ed response w' ed'
                  body Hwifi Hhdr Hh Hans Hout Hbody).
Qed.

(** X2: [update_device_twin d properties] sends one PATCH, to the URL
    [get_device_twin d] reads from, with [properties] as its JSON payload;
    when the response's status is outside the error set, the call's
    outcome is the outcome of decoding it. *)
Theorem update_device_twin_sends_one_patch st wifi headers base f d properties :
  _wifi (self st) = Some wifi ->
  _iot_hub_url (self st) = Some base ->
  _azure_header (self st) = Some headers ->
  wifi_patch wifi = Some f ->
  let url := base +:+ "/twins/" +:+ d +:+ "?api-version=2018-06-30" in
  requests (log (fst (update_device_twin d properties st)))
  = requests (log st)
    ++ [ {| req_verb := PATCH; req_url := url; req_json := Some properties;
            req_headers := headers |} ]
  /\ (forall w ed response w' ed' body,
        f url properties headers (net st) = (w, ed, inr response) ->
        status_code response ∉ error_set ->
        json response w = (w', ed', body) ->
        snd (update_device_twin d properties st) = body).
Proof.
  intros Hwifi Hurl Hhdr Hpatch url.
  assert (Hh : handler wifi (Patch url properties) headers
               = Some (f url properties headers))
    by (cbn [handler]; by rewrite Hpatch).
  rewrite (update_device_twin_run st base d properties Hurl).
  cbn [call_of]. fold url.
  split.
  - exact (helper_requests st wifi headers (Patch url properties) _ Hwifi Hhdr Hh).
  - intros w ed response w' ed' body Hans Hout Hbody.
    by rewrite (helper_decodes st wifi headers (Patch url properties) _ w ed
                  response w' ed' body Hwifi Hhdr Hh Hans Hout Hbody).
Qed.

(** X3: [get_devices()] sends one GET of
    [{base}/devices/?api-version=2018-06-30]; when the response's status
    is outside the error set, the call's outcome is the outcome of
    decoding it. *)
Theorem get_devices_sends_one_get st wifi headers base f :
  _wifi (self st) = Some wifi ->
  _iot_hub_url (self st) = Some base ->
  _azure_header (self st) = Some headers ->
  wifi_get wifi = Some f ->
  let url := base +:+ "/devices/?api-version=2018-06-30" in
  requests (log (fst (get_devices st)))
  = requests (log st)
    ++ [ {| req_verb := GET; req_url := url; req_json := None;
            req_headers := headers |} ]
  /\ (forall w ed response w' ed' body,
        f url headers (net st) = (w, ed, inr response) ->
        status_code response ∉ error_set ->
        json response w = (w', ed', body) ->
        snd (get_devices st) = body).
Proof.
  intros Hwifi Hurl Hhdr Hget url.
  assert (Hh : handler wifi (Get url) headers = Some (f url headers))
    by (cbn [handler]; by rewrite Hget).
  rewrite (get_devices_run st base Hurl). cbn [call_of]. fold url.
  split.
  - exact (helper_requests st wifi headers (Get url) _ Hwifi Hhdr Hh).
  - intros w ed response w' ed' body Hans Hout Hbody.
    by rewrite (helper_decodes st wifi headers (Get url) _ w ed response w' ed'
                  body Hwifi Hhdr Hh Hans Hout Hbody).
Qed.

(** X4: [delete_device d] sends one DELETE of
    [{base}/devices/{d}?api-version=2018-06-30].  When the status is
    outside the error set the body is still decoded: if it decodes the
    call returns [None], and if it does not (a 204 without a body) the
    call raises the decoder's exception, after the DELETE was sent. *)
Theorem delete_device_sends_one_delete st wifi headers base f d :
  _wifi (self st) = Some wifi ->
  _iot_hub_url (self st) = Some base ->
  _azure_header (self st) = Some headers ->
  wifi_delete wifi = Some f ->
  let url := base +:+ "/devices/" +:+ d +:+ "?api-version=2018-06-30" in
  let sent := {| req_verb := DELETE; req_url := url; req_json := None;
                 req_headers := headers |} in
  requests (log (fst (delete_device d st))) = requests (log st) ++ [sent]
  /\ (forall w ed response w' ed' j,
        f url headers (net st) = (w, ed, inr response) ->
        status_code response ∉ error_set ->
        json response w = (w', ed', inr j) ->
        delete_device d st
        = (after st (ed' ∘ ed) w' [Request sent; JsonDecode], inr tt))
  /\ (forall w ed response w' ed' e,
        f url headers (net st) = (w, ed, inr response) ->
        status_code response ∉ error_set ->
        json response w = (w', ed', inl e) ->
        delete_device d st
        = (after st (ed' ∘ ed) w' [Request sent; JsonDecode], inl e)).
Proof.
  intros Hwifi Hurl Hhdr Hdel url sent.
  assert (Hh : handler wifi (Delete url) headers = Some (f url headers))
    by (cbn [handler]; by rewrite Hdel).
  rewrite (delete_device_run st base d Hurl). cbn [call_of]. fold url.
  split; [| split].
  - transitivity (requests (log (fst (helper (Delete url) st)))).
    + by destruct (helper (Delete url) st) as [st' [e | j]].
    + exact (helper_requests st wifi headers (Delete url) _ Hwifi Hhdr Hh).
  - intros w ed response w' ed' j Hans Hout Hbody.
    by rewrite (helper_decodes st wifi headers (Delete url) _ w ed response
                  w' ed' _ Hwifi Hhdr Hh Hans Hout Hbody).
  - intros w ed response w' ed' e Hans Hout Hbody.
    by rewrite (helper_decodes st wifi headers (Delete url) _ w ed response
                  w' ed' _ Hwifi Hhdr Hh Hans Hout Hbody).
Qed.

(** X5: when the hub answers any of the seven public operations with a
    status of the error set, the operation raises
    [TypeError("Error {code}: {reason}")]; the request was sent, the body
    is not decoded, and the world is as the transport left it. *)
Theorem operation_raises_on_listed_status st wifi headers base o f
    w ed response :
  _wifi (self st) = Some wifi ->
  _iot_hub_url (self st) = Some base ->
  _azure_header (self st) = Some headers ->
  handler wifi (call_of base o) headers = Some f ->
  f (net st) = (w, ed, inr response) ->
  status_code response ∈ error_set ->
  perform o st
  = (after st ed w [Request (request_of (call_of base o) headers)],
     inl (TypeError ("Error " +:+ str (PyInt (status_code response))
                     +:+ ": " +:+ reason response))).
Proof.
  intros Hwifi Hurl Hhdr Hf Hans Hin.
  rewrite (perform_run st base o Hurl).
  rewrite (helper_run st wifi headers _ f Hwifi Hhdr Hf), Hans.
  by rewrite (parse_http_status_listed _ _ Hin).
Qed.

(** X6: when the transport itself raises [e] (no response at all), each
    of the seven public operations raises that same [e]: it is not caught
    or wrapped, no status is checked and nothing is decoded. *)
Theorem operation_propagates_transport_error st wifi headers base o f w ed e :
  _wifi (self st) = Some wifi ->
  _iot_hub_url (self st) = Some base ->
  _azure_header (self st) = Some headers ->
  handler wifi (call_of base o) headers = Some f ->
  f (net st) = (w, ed, inl e) ->
  perform o st
  = (after st ed w [Request (request_of (call_of base o) headers)], inl e).
Proof.
  intros Hwifi Hurl Hhdr Hf Hans.
  rewrite (perform_run st base o Hurl).
  by rewrite (helper_run st wifi headers _ f Hwifi Hhdr Hf), Hans.
Qed.

(** X7: when the hub answers with a status outside the error set, each of
    the seven public operations decodes the body once.  If decoding
    raises, the operation raises the same exception;
    otherwise the five reading and writing operations return the decoded
    value and [send_device_message] and [delete_device] return [None]. *)
Theorem operation_outcome_on_unlisted_status st wifi headers base o f
    w ed response w' ed' body :
  _wifi (self st) = Some wifi ->
  _iot_hub_url (self st) = Some base ->
  _azure_header (self st) = Some headers ->
  handler wifi (call_of base o) headers = Some f ->
  f (net st) = (w, ed, inr response) ->
  status_code response ∉ error_set ->
  json response w = (w', ed', body) ->
  perform o st
  = (after st (ed' ∘ ed) w'
       [Request (request_of (call_of base o) headers); JsonDecode],
     match body with
     | inl e => inl e
     | inr j =>
         match o with
         | SendDeviceMessage _ _ | DeleteDevice _ => inr None
         | _ => inr (Some j)
         end
     end).
Proof.
  intros Hwifi Hurl Hhdr Hf Hans Hout Hbody.
  rewrite (perform_run st base o Hurl).
  rewrite (helper_decodes st wifi headers _ f w ed response w' ed' body
             Hwifi Hhdr Hf Hans Hout Hbody).
  destruct body as [e | j]; [done |]. by destruct o.
Qed.

(** X8: in any state of the object and for any transport, one call of a
    public operation only appends to the trace, and what it appends is
    nothing, one request, or one request followed by one decoding: never a
    second request, never a decoding without a request before it. *)
Theorem operation_is_one_exchange st o :
  exists evs,
    log (fst (perform o st)) = log st ++ evs /\ one_exchange evs.
Proof.
  destruct (_iot_hub_url (self st)) as [base |] eqn:Hurl.
  - rewrite (perform_run st base o Hurl).
    destruct (helper_trace st (call_of base o)) as (evs & Hlog & Hevs).
    exists evs. split.
    + by destruct (helper (call_of base o) st) as [st' [e | j]].
    + destruct Hevs as [-> | (headers & _ & Hevs)]; [by left |].
      right. by exists (request_of (call_of base o) headers).
  - rewrite (perform_no_url st o Hurl). exists [].
    split; [by rewrite app_nil_r | by left].
Qed.

(** X9: on a client whose transport lacks the verb method an operation
    needs (construction does not check for it), the operation raises
    [AttributeError] for that method and leaves everything as it was:
    nothing is sent. *)
Theorem operation_without_method st wifi base o :
  _wifi (self st) = Some wifi ->
  _iot_hub_url (self st) = Some base ->
  supports wifi (verb_of (call_of base o)) = false ->
  perform o st
  = (st, inl (AttributeError (method_name (verb_of (call_of base o))))).
Proof.
  intros Hwifi Hurl Hs.
  rewrite (perform_run st base o Hurl).
  by rewrite (helper_no_method st wifi _ Hwifi Hs).
Qed.

(** X10: nothing is cached.  Two calls of [get_device_twin d] in a row
    send two GETs of the same URL, the second with the header dict as the
    first exchange left it, and return the two decoded bodies, each from
    its own response. *)
Theorem get_device_twin_twice st wifi headers base f d
    w1 ed1 response1 w1' ed1' j1 w2 ed2 response2 w2' ed2' j2 :
  _wifi (self st) = Some wifi ->
  _iot_hub_url (self st) = Some base ->
  _azure_header (self st) = Some headers ->
  wifi_get wifi = Some f ->
  let url := base +:+ "/twins/" +:+ d +:+ "?api-version=2018-06-30" in
  let sent h := Request {| req_verb := GET; req_url := url; req_json := None;
                           req_headers := h |} in
  let headers' := ed1' (ed1 headers) in
  f url headers (net st) = (w1, ed1, inr response1) ->
  status_code response1 ∉ error_set ->
  json response1 w1 = (w1', ed1', inr j1) ->
  f url headers' w1' = (w2, ed2, inr response2) ->
  status_code response2 ∉ error_set ->
  json response2 w2 = (w2', ed2', inr j2) ->
  twice (get_device_twin d) st
  = (after st (ed2' ∘ ed2 ∘ (ed1' ∘ ed1)) w2'
       [sent headers; JsonDecode; sent headers'; JsonDecode],
     inr (j1, j2)).
Proof.
  intros Hwifi Hurl Hhdr Hget url sent headers' Ha1 Ho1 Hb1 Ha2 Ho2 Hb2.
  assert (Hh : forall h, handler wifi (Get url) h = Some (f url h))
    by (intros h; cbn [handler]; by rewrite Hget).
  unfold twice, bind.
  rewrite (get_device_twin_run st base d Hurl). cbn [call_of]. fold url.
  rewrite (helper_decodes st wifi headers (Get url) _ w1 ed1 response1 w1' ed1'
             _ Hwifi Hhdr (Hh headers) Ha1 Ho1 Hb1).
  set (st1 := after st (ed1' ∘ ed1) w1' _).
  assert (Hhdr1 : _azure_header (self st1) = Some headers')
    by (unfold st1, after, edited; cbn [self _azure_header]; by rewrite Hhdr).
  rewrite (get_device_twin_run st1 base d Hurl). cbn [call_of]. fold url.
  rewrite (helper_decodes st1 wifi headers' (Get url) _ w2 ed2 response2 w2' ed2'
             _ Hwifi Hhdr1 (Hh headers') Ha2 Ho2 Hb2).
  unfold ret, st1, after. cbn [self net log request_of].
  by rewrite edited_edited, <- app_assoc.
Qed.

(** X11: on a client constructed with hub name [hub] and token [tok],
    every request any public operation sends carries the header mapping
    with the single entry [Authorization: tok], and its URL is
    [https://{hub}.azure-devices.net] followed by a path that starts with
    a slash. *)
Theorem operation_requests_are_authorized st wifi hub tok o :
  self st = constructed wifi hub tok ->
  exists evs,
    log (fst (perform o st)) = log st ++ evs
    /\ Forall (fun r =>
                 req_headers r = {[ "Authorization" := tok ]}
                 /\ exists rest,
                      req_url r
                      = ("https://" +:+ hub +:+ ".azure-devices.net")
                        +:+ "/" +:+ rest)
              (requests evs).
Proof.
  intros Hself.
  assert (Hurl : _iot_hub_url (self st)
                 = Some ("https://" +:+ hub +:+ ".azure-devices.net"))
    by (by rewrite Hself).
  rewrite (perform_run st _ o Hurl).
  destruct (helper_trace st (call_of ("https://" +:+ hub +:+ ".azure-devices.net") o))
    as (evs & Hlog & Hevs).
  exists evs. split.
  - by destruct (helper _ st) as [st' [e | j]].
  - assert (Hreq : forall headers,
               _azure_header (self st) = Some headers ->
               let r := request_of
                          (call_of ("https://" +:+ hub +:+ ".azure-devices.net") o)
                          headers in
               req_headers r = {[ "Authorization" := tok ]}
               /\ exists rest,
                    req_url r
                    = ("https://" +:+ hub +:+ ".azure-devices.net")
                      +:+ "/" +:+ rest).
    { intros headers Hh. rewrite Hself in Hh. injection Hh as <-.
      destruct o; (split; [reflexivity | eexists; reflexivity]). }
    destruct Hevs as [-> | (headers & Hh & [-> | ->])].
    + constructor.
    + constructor; [exact (Hreq headers Hh) | constructor].
    + constructor; [exact (Hreq headers Hh) | constructor].
Qed.

(** ** What the operations leave of the object *)

Lemma same_but_header_refl (o : IOT_HUB World) : same_but_header o o.
Proof. by repeat split. Qed.

Lemma same_but_header_trans (o1 o2 o3 : IOT_HUB World) :
  same_but_header o1 o2 -> same_but_header o2 o3 -> same_but_header o1 o3.
Proof.
  intros (Ha & Hb & Hc & Hd) (Ha' & Hb' & Hc' & Hd').
  repeat split; try congruence; tauto.
Qed.

Lemma same_but_header_edited (e : edit) (o : IOT_HUB World) :
  same_but_header o (edited e o).
Proof.
  unfold same_but_header, edited. cbn. repeat split; try done.
  all: rewrite fmap_is_Some; tauto.
Qed.

Lemma readonly_ret {A} (a : A) : readonly (World := World) (ret a).
Proof. intros st. apply same_but_header_refl. Qed.

Lemma readonly_raise {A} (e : exn) : readonly (World := World) (raise (A := A) e).
Proof. intros st. apply same_but_header_refl. Qed.

Lemma readonly_lift {A} (r : result A) : readonly (World := World) (lift r).
Proof. intros st. apply same_but_header_refl. Qed.

Lemma readonly_getattr {A} name (field : IOT_HUB World -> option A) :
  readonly (getattr name field).
Proof.
  intros st. unfold getattr.
  destruct (field (self st)); apply same_but_header_refl.
Qed.

Lemma readonly_method {A} name (m : option A) :
  readonly (World := World) (method name m).
Proof. intros st. destruct m; apply same_but_header_refl. Qed.

Lemma readonly_send r f : readonly (World := World) (send r f).
Proof.
  intros st. unfold send. destruct (f (net st)) as [[w e] res].
  apply same_but_header_edited.
Qed.

Lemma readonly_decode response : readonly (World := World) (decode response).
Proof.
  intros st. unfold decode. destruct (json response (net st)) as [[w e] res].
  apply same_but_header_edited.
Qed.

Lemma readonly_bind {A B} (m : M World A) (k : A -> M World B) :
  readonly m -> (forall a, readonly (k a)) -> readonly (bind m k).
Proof.
  intros Hm Hk st. unfold bind.
  specialize (Hm st). destruct (m st) as [st' [e | a]]; [exact Hm |].
  exact (same_but_header_trans _ _ _ Hm (Hk a st')).
Qed.

Create HintDb readonly.
#[local] Hint Resolve readonly_ret readonly_raise readonly_lift
  readonly_getattr readonly_method readonly_send readonly_decode : readonly.

Ltac readonly_steps :=
  repeat (apply readonly_bind; [| intros ?]); auto with readonly.

Lemma readonly_perform o : readonly (World := World) (perform o).
Proof.
  destruct o; unfold perform, send_device_message, get_device_twin,
    update_device_twin, replace_device_twin, get_devices, get_device,
    delete_device, _get, _post, _put, _patch, _delete;
    readonly_steps.
Qed.

(** An edit that changes nothing leaves the object as it is. *)
Lemma edited_nothing (e : edit) (o : IOT_HUB World) :
  (forall h, e h = h) -> edited e o = o.
Proof.
  intros He. destruct o as [a b c [h |]]; unfold edited; cbn; [| done].
  by rewrite He.
Qed.

(** On a quiet transport a helper leaves the object as it found it. *)
Lemma helper_on_quiet st c :
  (forall wifi, _wifi (self st) = Some wifi -> quiet wifi) ->
  self (fst (helper c st)) = self st.
Proof.
  intros Hq.
  destruct (_wifi (self st)) as [wifi |] eqn:Hwifi;
    [| by rewrite (helper_no_wifi st c Hwifi)].
  destruct (supports wifi (verb_of c)) eqn:Hs;
    [| by rewrite (helper_no_method st wifi c Hwifi Hs)].
  destruct (_azure_header (self st)) as [headers |] eqn:Hh;
    [| by rewrite (helper_no_header st wifi c Hwifi Hs Hh)].
  destruct (supports_handler wifi c headers Hs) as [f Hf].
  pose proof (Hq wifi eq_refl c headers f Hf) as Hrun.
  rewrite (helper_run st wifi headers c f Hwifi Hh Hf).
  destruct (f (net st)) as [[w ed] [e | response]] eqn:Hans;
    destruct (Hrun _ _ _ _ Hans) as [Hed Hok].
  - cbn [fst after self]. by apply edited_nothing.
  - destruct (_parse_http_status _ _).
    + cbn [fst after self]. by apply edited_nothing.
    + destruct (json response w) as [[w' ed'] body] eqn:Hbody.
      rewrite (decode_after st response ed w _ w' ed' body Hbody).
      destruct (Hok response eq_refl _ _ _ _ Hbody) as [Hed' _].
      cbn [fst after self]. apply edited_nothing.
      intros h. cbn. by rewrite Hed, Hed'.
Qed.

(** C8, as the code has it: no public operation assigns an attribute of
    the client, so the transport reference, the base URL and the token
    are the same after each of the seven operations, in every state and
    whether the call returns or raises, and the header attribute is
    still set if it was.  The header dict itself is handed to the
    transport: its contents are unchanged too when the verb methods of
    the transport and the responses they give do not write into it. *)
Theorem public_operations_keep_configuration st o :
  let obj := self (fst (perform o st)) in
  (_wifi obj = _wifi (self st)
   /\ _iot_hub_url obj = _iot_hub_url (self st)
   /\ _sas_token obj = _sas_token (self st)
   /\ (is_Some (_azure_header obj) <-> is_Some (_azure_header (self st))))
  /\ ((forall wifi, _wifi (self st) = Some wifi -> quiet wifi) ->
      obj = self st).
Proof.
  intros obj. split; [exact (readonly_perform o st) |].
  intros Hq. unfold obj.
  destruct (_iot_hub_url (self st)) as [base |] eqn:Hurl.
  - rewrite (perform_run st base o Hurl).
    rewrite <- (helper_on_quiet st (call_of base o) Hq).
    by destruct (helper (call_of base o) st) as [st' [e | j]].
  - by rewrite (perform_no_url st o Hurl).
Qed.

End Operations.

(** * The scenario, run *)

Lemma listed_404 : 404 ∈ error_set.
Proof. apply error_set_cases. lia. Qed.

Lemma unlisted_200 : 200 ∉ error_set.
Proof. rewrite error_set_cases. lia. Qed.

Lemma unlisted_204 : 204 ∉ error_set.
Proof. rewrite error_set_cases. lia. Qed.

Lemma unlisted_503 : 503 ∉ error_set.
Proof. rewrite error_set_cases. lia. Qed.

(** The hub answers a DELETE with 404: the helper raises
    ["Error 404: Not Found"] and decodes nothing. *)
Lemma helper_raises_on_listed_status_witness :
  helper (Delete Scenario.device_url) (Scenario.myhub [Scenario.not_found])
  = (after (Scenario.myhub [Scenario.not_found]) id []
       [Request {| req_verb := DELETE; req_url := Scenario.device_url;
                   req_json := None; req_headers := Scenario.auth |}],
     inl (TypeError "Error 404: Not Found"))
  /\ decodes (log (fst (helper (Delete Scenario.device_url)
                          (Scenario.myhub [Scenario.not_found])))) = 0%nat.
Proof.
  exact (helper_raises_on_listed_status
           (Scenario.myhub [Scenario.not_found]) Scenario.esp32 Scenario.auth
           (Delete Scenario.device_url) Scenario.answer [] id
           (Scenario.reply Scenario.not_found)
           eq_refl eq_refl eq_refl eq_refl listed_404).
Defined.

(** The hub answers a PATCH with 204 and no body: the decoder's error is
    the helper's outcome. *)
Lemma helper_returns_decoder_outcome_witness :
  helper (Patch Scenario.device_url JNull) (Scenario.myhub [Scenario.no_content])
  = (after (Scenario.myhub [Scenario.no_content]) id []
       [Request {| req_verb := PATCH; req_url := Scenario.device_url;
                   req_json := Some JNull; req_headers := Scenario.auth |};
        JsonDecode],
     inl (ValueError "syntax error in JSON")).
Proof.
  exact (helper_returns_decoder_outcome
           (Scenario.myhub [Scenario.no_content]) Scenario.esp32 Scenario.auth
           (Patch Scenario.device_url JNull) Scenario.answer [] id
           (Scenario.reply Scenario.no_content) [] id
           (inl (ValueError "syntax error in JSON"))
           eq_refl eq_refl eq_refl eq_refl unlisted_204 eq_refl).
Defined.

(** The scenario of the specification: hub ["myhub"], device ["sensor1"]. *)
Lemma get_device_sends_one_get_witness :
  requests (log (fst (get_device "sensor1" (Scenario.myhub [Scenario.found]))))
  = [ {| req_verb := GET; req_url := Scenario.device_url; req_json := None;
         req_headers := {[ "Authorization" := "SharedAccessSignature sr=..." ]} |} ]
  /\ snd (get_device "sensor1" (Scenario.myhub [Scenario.found]))
     = inr (JDict [("deviceId", JStr "sensor1")]).
Proof.
  destruct (get_device_sends_one_get Scenario.esp32 "myhub" Scenario.token
              "sensor1" (Scenario.start [Scenario.found])
              (fun _ _ => Scenario.answer) [] id
              (inr (Scenario.reply Scenario.found))
              eq_refl eq_refl eq_refl) as [Hreq [_ Hret]].
  split; [exact Hreq |].
  exact (Hret (Scenario.reply Scenario.found) [] id _
           eq_refl unlisted_200 eq_refl).
Defined.

(** A message is posted to a hub that answers 503 with a body: the POST
    is made, the body is decoded and dropped, the call returns [None]. *)
Lemma send_device_message_posts_once_witness :
  send_device_message "sensor1" (JStr "21.5")
    (Scenario.myhub [Scenario.unavailable])
  = (after (Scenario.myhub [Scenario.unavailable]) id []
       [Request {| req_verb := POST; req_url := Scenario.events_url;
                   req_json := Some (JStr "21.5");
                   req_headers := Scenario.auth |};
        JsonDecode],
     inr tt).
Proof.
  rewrite (send_device_message_posts_once
             (Scenario.myhub [Scenario.unavailable]) Scenario.esp32 Scenario.auth
             "https://myhub.azure-devices.net" (fun _ _ _ => Scenario.answer)
             "sensor1" (JStr "21.5") [] id
             (inr (Scenario.reply Scenario.unavailable))
             eq_refl eq_refl eq_refl eq_refl eq_refl).
  destruct (decide (status_code (Scenario.reply Scenario.unavailable) ∈ error_set))
    as [Hin | _]; [destruct (unlisted_503 Hin) | reflexivity].
Defined.

(** C7, refuted as stated: the hub accepts a message with 204 and an
    empty body, or refuses it with 404; the POST is made and the call
    raises, it does not return [None]. *)
Lemma send_device_message_counterexample :
  (requests (log (fst (send_device_message "sensor1" (JStr "21.5")
                         (Scenario.myhub [Scenario.no_content]))))
   = [ {| req_verb := POST; req_url := Scenario.events_url;
          req_json := Some (JStr "21.5"); req_headers := Scenario.auth |} ]
   /\ snd (send_device_message "sensor1" (JStr "21.5")
             (Scenario.myhub [Scenario.no_content]))
      = inl (ValueError "syntax error in JSON"))
  /\ snd (send_device_message "sensor1" (JStr "21.5")
            (Scenario.myhub [Scenario.not_found]))
     = inl (TypeError "Error 404: Not Found").
Proof. repeat split; reflexivity. Qed.

(** Replacing the twin of ["sensor1"] on ["myhub"]: the URL requested. *)
Lemma replace_device_twin_url_witness :
  requests (log (fst (replace_device_twin "sensor1" JNull
                        (Scenario.myhub [Scenario.found]))))
  = [ {| req_verb := PUT;
         req_url := "https://myhub.azure-devices.net/twins/sensor1?api-version-2018-06-30";
         req_json := Some JNull; req_headers := Scenario.auth |} ]
  /\ "https://myhub.azure-devices.net/twins/sensor1?api-version-2018-06-30"
     <> "https://myhub.azure-devices.net/twins/sensor1?api-version=2018-06-30".
Proof.
  exact (replace_device_twin_url
           (Scenario.myhub [Scenario.found]) Scenario.esp32 Scenario.auth
           "https://myhub.azure-devices.net" (fun _ _ _ => Scenario.answer)
           "sensor1" JNull eq_refl eq_refl eq_refl eq_refl).
Defined.

(** A [Session] is rejected and a 404 is refused: both with [TypeError]. *)
Lemma both_failures_are_TypeError_witness :
  exists msg1 msg2,
    snd (__init__ Scenario.session "myhub" Scenario.token (Scenario.start []))
    = inl (TypeError msg1)
    /\ _parse_http_status 404 "Not Found" = inl (TypeError msg2)
    /\ class_of (TypeError msg1) = class_of (TypeError msg2)
    /\ msg1 <> msg2.
Proof.
  exact (both_failures_are_TypeError Scenario.session "myhub" Scenario.token
           (Scenario.start []) 404 "Not Found" eq_refl listed_404).
Defined.

(** C5, refuted as stated: [bare] lacks every verb method and is accepted;
    [session] has every verb method and is rejected. *)
Lemma capability_check_counterexample :
  (forallb (supports Scenario.bare) verbs = false
   /\ forallb (fun v => negb (supports Scenario.bare v)) verbs = true
   /\ snd (__init__ Scenario.bare "myhub" Scenario.token (Scenario.start []))
      = inr tt)
  /\ (forallb (supports Scenario.session) verbs = true
      /\ snd (__init__ Scenario.session "myhub" Scenario.token (Scenario.start []))
         = inl (TypeError "This library requires a WiFiManager object.")).
Proof. repeat split; reflexivity. Qed.

(** The two transports of C10, through [__init__]. *)
Lemma init_decided_by_type_name_witness :
  snd (__init__ Scenario.bare "myhub" Scenario.token (Scenario.start [])) = inr tt
  /\ snd (__init__ Scenario.session "myhub" Scenario.token (Scenario.start []))
     = inl (TypeError "This library requires a WiFiManager object.").
Proof.
  split.
  - exact (proj1 (proj2 (proj2 (proj2
             (init_decided_by_type_name Scenario.bare "myhub"
                Scenario.token (Scenario.start [])))))
             eq_refl eq_refl).
  - exact (proj2 (proj2 (proj2 (proj2
             (init_decided_by_type_name Scenario.session "myhub"
                Scenario.token (Scenario.start [])))))
             eq_refl eq_refl).
Defined.

(** * The operations, run on the scenario *)

Lemma get_device_twin_sends_one_get_witness :
  requests (log (fst (get_device_twin "sensor1"
                        (Scenario.myhub [Scenario.twin_reply 1]))))
  = [ {| req_verb := GET; req_url := Scenario.twin_url; req_json := None;
         req_headers := Scenario.auth |} ]
  /\ snd (get_device_twin "sensor1" (Scenario.myhub [Scenario.twin_reply 1]))
     = inr (Scenario.twin 1).
Proof.
  destruct (get_device_twin_sends_one_get
              (Scenario.myhub [Scenario.twin_reply 1]) Scenario.esp32
              Scenario.auth Scenario.base_url (fun _ _ => Scenario.answer)
              "sensor1" eq_refl eq_refl eq_refl eq_refl) as [Hreq Hret].
  split; [exact Hreq |].
  exact (Hret [] id (Scenario.reply (Scenario.twin_reply 1)) [] id _
           eq_refl unlisted_200 eq_refl).
Defined.

Lemma update_device_twin_sends_one_patch_witness :
  requests (log (fst (update_device_twin "sensor1" Scenario.desired
                        (Scenario.myhub [Scenario.twin_reply 2]))))
  = [ {| req_verb := PATCH; req_url := Scenario.twin_url;
         req_json := Some Scenario.desired; req_headers := Scenario.auth |} ]
  /\ snd (update_device_twin "sensor1" Scenario.desired
            (Scenario.myhub [Scenario.twin_reply 2]))
     = inr (Scenario.twin 2).
Proof.
  destruct (update_device_twin_sends_one_patch
              (Scenario.myhub [Scenario.twin_reply 2]) Scenario.esp32
              Scenario.auth Scenario.base_url (fun _ _ _ => Scenario.answer)
              "sensor1" Scenario.desired eq_refl eq_refl eq_refl eq_refl)
    as [Hreq Hret].
  split; [exact Hreq |].
  exact (Hret [] id (Scenario.reply (Scenario.twin_reply 2)) [] id _
           eq_refl unlisted_200 eq_refl).
Defined.

Lemma get_devices_sends_one_get_witness :
  requests (log (fst (get_devices (Scenario.myhub [Scenario.registry]))))
  = [ {| req_verb := GET; req_url := Scenario.devices_url; req_json := None;
         req_headers := Scenario.auth |} ]
  /\ snd (get_devices (Scenario.myhub [Scenario.registry]))
     = inr (JList [Scenario.twin 1]).
Proof.
  destruct (get_devices_sends_one_get
              (Scenario.myhub [Scenario.registry]) Scenario.esp32
              Scenario.auth Scenario.base_url (fun _ _ => Scenario.answer)
              eq_refl eq_refl eq_refl eq_refl) as [Hreq Hret].
  split; [exact Hreq |].
  exact (Hret [] id (Scenario.reply Scenario.registry) [] id _
           eq_refl unlisted_200 eq_refl).
Defined.

(** The hub deletes the device and answers 204 without a body. *)
Lemma delete_device_sends_one_delete_witness :
  delete_device "sensor1" (Scenario.myhub [Scenario.no_content])
  = (after (Scenario.myhub [Scenario.no_content]) id []
       [Request {| req_verb := DELETE; req_url := Scenario.device_url;
                   req_json := None; req_headers := Scenario.auth |};
        JsonDecode],
     inl (ValueError "syntax error in JSON")).
Proof.
  destruct (delete_device_sends_one_delete
              (Scenario.myhub [Scenario.no_content]) Scenario.esp32
              Scenario.auth Scenario.base_url (fun _ _ => Scenario.answer)
              "sensor1" eq_refl eq_refl eq_refl eq_refl) as (_ & _ & Hraise).
  exact (Hraise [] id (Scenario.reply Scenario.no_content) [] id _
           eq_refl unlisted_204 eq_refl).
Defined.

Lemma operation_raises_on_listed_status_witness :
  perform (UpdateDeviceTwin "sensor1" Scenario.desired)
          (Scenario.myhub [Scenario.not_found])
  = (after (Scenario.myhub [Scenario.not_found]) id []
       [Request {| req_verb := PATCH; req_url := Scenario.twin_url;
                   req_json := Some Scenario.desired;
                   req_headers := Scenario.auth |}],
     inl (TypeError "Error 404: Not Found")).
Proof.
  exact (operation_raises_on_listed_status
           (Scenario.myhub [Scenario.not_found]) Scenario.esp32 Scenario.auth
           Scenario.base_url (UpdateDeviceTwin "sensor1" Scenario.desired)
           Scenario.answer [] id (Scenario.reply Scenario.not_found)
           eq_refl eq_refl eq_refl eq_refl eq_refl listed_404).
Defined.

(** The radio is down: the transport's own error reaches the caller. *)
Lemma operation_propagates_transport_error_witness :
  perform (SendDeviceMessage "sensor1" (JStr "21.5"))
          (Scenario.offlinehub [Scenario.found])
  = (after (Scenario.offlinehub [Scenario.found]) id [Scenario.found]
       [Request {| req_verb := POST; req_url := Scenario.events_url;
                   req_json := Some (JStr "21.5");
                   req_headers := Scenario.auth |}],
     inl (OtherError "RuntimeError" "Failed to request hostname")).
Proof.
  exact (operation_propagates_transport_error
           (Scenario.offlinehub [Scenario.found]) Scenario.offline Scenario.auth
           Scenario.base_url (SendDeviceMessage "sensor1" (JStr "21.5"))
           Scenario.down [Scenario.found] id
           (OtherError "RuntimeError" "Failed to request hostname")
           eq_refl eq_refl eq_refl eq_refl eq_refl).
Defined.

(** A message is accepted with 204 and no body: the call raises. *)
Lemma operation_outcome_on_unlisted_status_witness :
  perform (SendDeviceMessage "sensor1" (JStr "21.5"))
          (Scenario.myhub [Scenario.no_content])
  = (after (Scenario.myhub [Scenario.no_content]) id []
       [Request {| req_verb := POST; req_url := Scenario.events_url;
                   req_json := Some (JStr "21.5");
                   req_headers := Scenario.auth |};
        JsonDecode],
     inl (ValueError "syntax error in JSON")).
Proof.
  exact (operation_outcome_on_unlisted_status
           (Scenario.myhub [Scenario.no_content]) Scenario.esp32 Scenario.auth
           Scenario.base_url (SendDeviceMessage "sensor1" (JStr "21.5"))
           Scenario.answer [] id (Scenario.reply Scenario.no_content) [] id
           (inl (ValueError "syntax error in JSON"))
           eq_refl eq_refl eq_refl eq_refl eq_refl unlisted_204 eq_refl).
Defined.

(** A transport of the accepted type without a [get] method. *)
Lemma operation_without_method_witness :
  perform (GetDevice "sensor1") (Scenario.barehub [Scenario.found])
  = (Scenario.barehub [Scenario.found], inl (AttributeError "get")).
Proof.
  exact (operation_without_method
           (Scenario.barehub [Scenario.found]) Scenario.bare Scenario.base_url
           (GetDevice "sensor1") eq_refl eq_refl eq_refl).
Defined.

(** The twin changes between two reads: both versions are returned. *)
Lemma get_device_twin_twice_witness :
  twice (get_device_twin "sensor1")
        (Scenario.myhub [Scenario.twin_reply 1; Scenario.twin_reply 2])
  = (after (Scenario.myhub [Scenario.twin_reply 1; Scenario.twin_reply 2]) id []
       [Request {| req_verb := GET; req_url := Scenario.twin_url;
                   req_json := None; req_headers := Scenario.auth |};
        JsonDecode;
        Request {| req_verb := GET; req_url := Scenario.twin_url;
                   req_json := None; req_headers := Scenario.auth |};
        JsonDecode],
     inr (Scenario.twin 1, Scenario.twin 2)).
Proof.
  exact (get_device_twin_twice
           (Scenario.myhub [Scenario.twin_reply 1; Scenario.twin_reply 2])
           Scenario.esp32 Scenario.auth Scenario.base_url
           (fun _ _ => Scenario.answer) "sensor1"
           [Scenario.twin_reply 2] id (Scenario.reply (Scenario.twin_reply 1))
           [Scenario.twin_reply 2] id (Scenario.twin 1)
           [] id (Scenario.reply (Scenario.twin_reply 2)) [] id (Scenario.twin 2)
           eq_refl eq_refl eq_refl eq_refl
           eq_refl unlisted_200 eq_refl eq_refl unlisted_200 eq_refl).
Defined.

Lemma operation_requests_are_authorized_witness :
  exists evs,
    log (fst (perform (ReplaceDeviceTwin "sensor1" Scenario.desired)
                      (Scenario.myhub [Scenario.twin_reply 3])))
    = log (Scenario.myhub [Scenario.twin_reply 3]) ++ evs
    /\ Forall (fun r =>
                 req_headers r = {[ "Authorization" := Scenario.token ]}
                 /\ exists rest,
                      req_url r
                      = ("https://" +:+ "myhub" +:+ ".azure-devices.net")
                        +:+ "/" +:+ rest)
              (requests evs).
Proof.
  exact (operation_requests_are_authorized
           (Scenario.myhub [Scenario.twin_reply 3]) Scenario.esp32 "myhub"
           Scenario.token (ReplaceDeviceTwin "sensor1" Scenario.desired)
           eq_refl).
Defined.

(** * The header dict, shared with the transport *)

Lemma esp32_is_quiet : quiet Scenario.esp32.
Proof.
  intros c headers f Hf w w' e res Hans.
  assert (f = Scenario.answer) as ->
    by (destruct c; cbn in Hf; by injection Hf as <-).
  destruct w as [| r rest]; cbn in Hans; injection Hans as <- <- <-.
  - split; [done | discriminate].
  - split; [done |]. intros a Ha. injection Ha as <-.
    intros w0 w0' e0 res0 Hj.
    destruct r as [[code why] body]. cbn in Hj. injection Hj as <- <- <-.
    by split.
Qed.

(** On the scripted transport, which writes nothing into the dict, the
    object after [get_device] is the object before. *)
Lemma public_operations_keep_configuration_witness :
  self (fst (perform (GetDevice "sensor1") (Scenario.myhub [Scenario.found])))
  = self (Scenario.myhub [Scenario.found]).
Proof.
  apply (public_operations_keep_configuration
           (Scenario.myhub [Scenario.found]) (GetDevice "sensor1")).
  intros wifi Hwifi. cbn in Hwifi. injection Hwifi as <-.
  exact esp32_is_quiet.
Defined.

(** C8, refuted as stated: a transport that fills in a [User-Agent]
    header in the dict it is handed.  After [get_device] the header of
    the client has two entries: the object is not what it was. *)
Lemma header_dict_counterexample :
  _azure_header (self (Scenario.chattyhub [Scenario.found]))
  = Some {[ "Authorization" := Scenario.token ]}
  /\ _azure_header
       (self (fst (get_device "sensor1" (Scenario.chattyhub [Scenario.found]))))
     = Some (<[ "User-Agent" := "esp32spi" ]>
               {[ "Authorization" := Scenario.token ]})
  /\ self (fst (get_device "sensor1" (Scenario.chattyhub [Scenario.found])))
     <> self (Scenario.chattyhub [Scenario.found]).
Proof.
  split; [reflexivity | split; [reflexivity |]].
  intros H.
  apply (f_equal (fun o => _azure_header o ≫= (.!! "User-Agent"))) in H.
  vm_compute in H. discriminate H.
Qed.
